(** * Dual-direction agreement scoring and the mutation harness

    A shallow embedding of [evaluate.py] and of [detect.rank].

    Numbers.  A prediction is a numpy array of floats; here it is a list of
    exact rationals.  Rounding, overflow and NaN inputs are not represented;
    the one place where the program can leave the finite numbers, the
    divisions of the harmonic mean, yields [NonFinite] for a zero
    denominator.  Where underflow decides a property, [Float64] embeds the
    same lines of [squared_error_agreement] over binary64 floats.

    Effects.  Exceptions are the constructor [Raise] of [result];
    [fix_zeros], which overwrites its argument in place, is a function from
    the contents of the array before the call to its contents after it, and
    [harmonic_mean_agreement] returns the final contents of both of its
    arguments next to its value. *)

From Stdlib Require Import String.
From Stdlib Require Import QArith Qabs Qminmax ZArith Arith List Bool Lia Lqa.
From Stdlib Require Import Sorting.Sorted Sorting.Permutation.
From Stdlib Require DecimalString DecimalNat.
From Stdlib Require PrimFloat.
Import ListNotations.

Close Scope Q_scope.
Set Implicit Arguments.

(** ** Python: exceptions, built-ins *)

Module Py.

Inductive exn : Type :=
| AssertionError
| IndexError
| ValueError
| TypeError
| AttributeError.

Inductive result (A : Type) : Type :=
| Ok (a : A)
| Raise (e : exn).
Arguments Ok {A} a.
Arguments Raise {A} e.

Definition bind {A B : Type} (r : result A) (k : A -> result B) : result B :=
  match r with
  | Ok a => k a
  | Raise e => Raise e
  end.

Definition assert (b : bool) : result unit :=
  if b then Ok tt else Raise AssertionError.

(** [l[i]] for a non-negative [i]. *)
Definition getitem {A : Type} (l : list A) (i : nat) : result A :=
  match nth_error l i with
  | Some x => Ok x
  | None => Raise IndexError
  end.

(** [l[-1]]. *)
Definition getlast {A : Type} (l : list A) : result A :=
  match l with
  | [] => Raise IndexError
  | x :: l' => Ok (last l' x)
  end.

(** [enumerate(l, start)]. *)
Definition enumerate {A : Type} (start : nat) (l : list A) : list (nat * A) :=
  combine (seq start (length l)) l.

(** [zip(a, b)] stops at the shorter argument. *)
Definition zip {A B : Type} (a : list A) (b : list B) : list (A * B) :=
  combine a b.

(** [list.sort] and [sorted] are stable and compare with [<] only.  On a
    strict weak order every stable sort returns the same list; insertion
    from the right is the one written here. *)
Section Sort.
Context {A : Type} (ltb : A -> A -> bool).

Fixpoint insort (x : A) (l : list A) : list A :=
  match l with
  | [] => [x]
  | y :: ys => if ltb y x then y :: insort x ys else x :: y :: ys
  end.

Definition list_sort (l : list A) : list A := fold_right insort [] l.
End Sort.

(** [sorted(l, key=key, reverse=reverse)]: with [reverse] the list is
    reversed, sorted and reversed again, which keeps elements of equal key
    in their original order. *)
Definition sorted {A K : Type} (ltK : K -> K -> bool) (key : A -> K)
    (reverse : bool) (l : list A) : list A :=
  let lt := fun a b => ltK (key a) (key b) in
  if reverse then rev (list_sort lt (rev l)) else list_sort lt l.

(** [<] on floats. *)
Definition Qltb (x y : Q) : bool := negb (Qle_bool y x).

(** The built-in [sum], from 0, left to right. *)
Definition sum (l : list Q) : Q := fold_left Qplus l 0%Q.

(** [math.isclose(a, b, rel_tol=rel_tol, abs_tol=abs_tol)]. *)
Definition isclose (a b rel_tol abs_tol : Q) : bool :=
  Qle_bool (Qabs (a - b))
           (Qmax (rel_tol * Qmax (Qabs a) (Qabs b)) abs_tol)%Q.

(** The defaults of [math.isclose]: [rel_tol=1e-09], [abs_tol=0.0]. *)
Definition default_rel_tol : Q := (1 # 1000000000)%Q.
Definition default_abs_tol : Q := 0%Q.

(** [sys.float_info.epsilon], 2^-52. *)
Definition float_info_epsilon : Q := (1 # 4503599627370496)%Q.

End Py.

Notation "x <- r ;; k" := (Py.bind r (fun x => k))
  (at level 61, r at next level, right associativity).
Notation "r ;;; k" := (Py.bind r (fun _ => k))
  (at level 61, right associativity).

(** ** numpy: one-dimensional arrays *)

Module Np.
Import Py.

Definition ndarray : Type := list Q.

(** A float that a division may have taken out of the finite numbers. *)
Inductive npfloat : Type :=
| Finite (q : Q)
| NonFinite.

Fixpoint zip_with {B : Type} (f : Q -> Q -> B) (a b : ndarray) : list B :=
  match a, b with
  | x :: a', y :: b' => f x y :: zip_with f a' b'
  | _, _ => []
  end.

(** An element-wise binary operation on shapes [(n,)] and [(m,)]: the shapes
    must agree, or one of them is [(1,)] and is broadcast; anything else is
    a [ValueError]. *)
Definition elementwise {B : Type} (f : Q -> Q -> B) (a b : ndarray)
    : result (list B) :=
  if length a =? length b then Ok (zip_with f a b)
  else if length b =? 1 then Ok (map (fun x => f x (hd 0%Q b)) a)
  else if length a =? 1 then Ok (map (fun y => f (hd 0%Q a) y) b)
  else Raise ValueError.

(** [x / y] on floats: finite unless the denominator is zero. *)
Definition divide (x y : Q) : npfloat :=
  if Qeq_bool y 0%Q then NonFinite else Finite (x / y)%Q.

(** The finite entries of an array, if all of them are. *)
Fixpoint all_finite (a : list npfloat) : option ndarray :=
  match a with
  | [] => Some []
  | Finite q :: a' => option_map (cons q) (all_finite a')
  | NonFinite :: _ => None
  end.

(** [a[i] = v], for [i] inside the array. *)
Definition setitem (a : ndarray) (i : nat) (v : Q) : ndarray :=
  firstn i a ++ v :: skipn (S i) a.

Definition subtract : ndarray -> ndarray -> result ndarray := elementwise Qminus.

(** [a ** 2]. *)
Definition square (a : ndarray) : ndarray := map (fun x => (x ^ 2)%Q) a.

(** [a.sum()]. *)
Definition sum (a : ndarray) : Q := fold_left Qplus a 0%Q.

End Np.

(** ** vocabulary, corpus, vectorize_tokens, training_utils *)

Module Vocabulary.
(** Ids 0 and 99 are the start and end sentinels ([evaluate.py], the
    assertions of the main loop). *)
Definition start_token_index : nat := 0.
Definition end_token_index : nat := 99.
End Vocabulary.

Module Corpus.
(** Modelled from the spec: [corpus.Token] is not among the sources.  A
    token is an immutable record of kind, text and 1-based line;
    [evaluate.py] reads [line]. *)
Record Token : Type := mkToken {
  token_kind : string;
  text : string;
  line : nat
}.

Definition Token_eqb (a b : Token) : bool :=
  String.eqb (token_kind a) (token_kind b)
  && String.eqb (text a) (text b)
  && (line a =? line b).
End Corpus.

Module TrainingUtils.
Import Py Vocabulary.

(** A sentence as the callers take it apart: [(context, target)]. *)
Definition Sentence : Type := (list nat * nat)%type.

(** Modelled from the spec: [training_utils.Sentences] is not among the
    sources.  A forward window at position [k] holds the [size] ids
    immediately preceding [k], a backward window the [size] ids immediately
    following [k]; positions outside the file are filled with the start id
    (forward) or the end id (backward); the target of both is the id at
    [k]. *)
Definition forward_sentence (vector : list nat) (size k : nat) : Sentence :=
  (map (fun j => if size <=? k + j
                 then nth (k + j - size) vector start_token_index
                 else start_token_index) (seq 0 size),
   nth k vector start_token_index).

(** Modelled from the spec: the backward window at position [k], see
    [forward_sentence]. *)
Definition backward_sentence (vector : list nat) (size k : nat) : Sentence :=
  (map (fun j => nth (k + 1 + j) vector end_token_index) (seq 0 size),
   nth k vector end_token_index).

(** Modelled from the spec: the two generators.  Neither takes the end
    sentinel as a target.  The caller in [evaluate.py] numbers the zipped
    windows from [sentence_length] and asserts that the forward target is
    the id at that number, so the forward sequence begins at position
    [size]; the backward sequence begins at position 0, which is the offset
    [chop_prefix] compensates. *)
Definition Sentences (vector : list nat) (size : nat) (backwards : bool)
    : list Sentence :=
  if backwards
  then map (backward_sentence vector size) (seq 0 (length vector - 1))
  else map (forward_sentence vector size)
           (seq size (length vector - 1 - size)).

End TrainingUtils.

Module VectorizeTokens.
Import Vocabulary Corpus.

(** Modelled from the spec: [vectorize_tokens] is not among the sources.
    The file vector is the ids of the tokens between the two sentinels;
    [to_index] is the vocabulary's mapping. *)
Definition vectorize_tokens (to_index : string -> nat) (tokens : list Token)
    : list nat :=
  start_token_index :: map (fun t => to_index (text t)) tokens
    ++ [end_token_index].

End VectorizeTokens.

(** ** detect.py *)

Module Detect.
Import Py Np Corpus.

(** [rank], lines 101-103. *)
Definition rank (predictions : ndarray) : list (nat * Q) :=
  sorted Qltb (fun t => snd t) true (enumerate 0 predictions).

(** Modelled from the spec: [harmonic_mean] is not in this [detect.py].
    The element-wise harmonic mean, the reciprocal of the mean of the
    reciprocals. *)
Definition harmonic_mean_at (a b : Q) : npfloat :=
  match divide 1%Q a, divide 1%Q b with
  | Finite ra, Finite rb => divide 2%Q (ra + rb)%Q
  | _, _ => NonFinite
  end.

(** Modelled from the spec: [harmonic_mean] on two arrays, element by
    element. *)
Definition harmonic_mean (a b : ndarray) : result (list npfloat) :=
  elementwise harmonic_mean_at a b.

(** Modelled from the spec: [index_of_max] is not in this [detect.py].  The
    top prediction is the id that [rank] puts first. *)
Definition index_of_max (predictions : ndarray) : result nat :=
  match rank predictions with
  | [] => Raise ValueError
  | (i, _) :: _ => Ok i
  end.

(** Modelled from the spec: [chop_prefix] is not in this [detect.py].  It
    drops the windows by which the backward sequence is ahead of the forward
    one. *)
Definition chop_prefix {A : Type} (prefix : nat) (sequence : list A) : list A :=
  skipn prefix sequence.

(** Modelled from the spec: [Agreement] is not in this [detect.py].  The
    fields are the ones [evaluate.py] reads; the order is by score, ties
    broken by index, as the comparison of the tuple
    [(probability, index)]. *)
Record Agreement : Type := mkAgreement {
  probability : Q;
  index : nat
}.

(** Modelled from the spec: [a < b] on agreements, the comparison of the
    tuples: the first components that differ decide. *)
Definition Agreement_ltb (a b : Agreement) : bool :=
  if Qeq_bool (probability a) (probability b)
  then index a <? index b
  else Qltb (probability a) (probability b).

(** Modelled from the spec: the kinds of a fix and of a mutation. *)
Inductive FixKind : Type := insert | remove | substitute.

(** Modelled from the spec: [Fix] is not in this [detect.py].  A fix has a
    kind, a location in the file vector and, for an insertion, the token
    inserted; [evaluate.py] reads the three fields. *)
Record Fix : Type := mkFix {
  kind : FixKind;
  location : nat;
  token : option Token
}.

Definition FixKind_eqb (a b : FixKind) : bool :=
  match a, b with
  | insert, insert | remove, remove | substitute, substitute => true
  | _, _ => false
  end.

Definition Fix_eqb (a b : Fix) : bool :=
  FixKind_eqb (kind a) (kind b)
  && (location a =? location b)
  && match token a, token b with
     | Some s, Some t => Token_eqb s t
     | None, None => true
     | _, _ => false
     end.

Section Fixes.
(** The external syntax checker. *)
Variable check_syntax : list Token -> bool.

(** Modelled from the spec: [Fixes] is not in this [detect.py].  A
    collection of fixes over a token stream, order-preserving and without
    duplicates.  [offset] is the distance between a position of the file
    vector and the same position in [tokens]. *)
Record Fixes : Type := mkFixes {
  tokens : list Token;
  offset : nat;
  fixes : list Fix
}.

(** Modelled from the spec: [Fixes(tokens, offset=offset)], empty. *)
Definition new_Fixes (tokens : list Token) (offset : nat) : Fixes :=
  mkFixes tokens offset [].

(** Modelled from the spec: the working copy of the token stream with a
    fix applied.  A removal deletes the token at the position, an insertion
    puts its token immediately before the position. *)
Definition apply_fix (tokens : list Token) (offset : nat) (f : Fix)
    : list Token :=
  let i := location f - offset in
  match kind f, token f with
  | remove, _ => firstn i tokens ++ skipn (S i) tokens
  | insert, Some t => firstn i tokens ++ t :: skipn i tokens
  | _, _ => tokens
  end.

(** Modelled from the spec: a candidate validates when the checker accepts
    the edited stream. *)
Definition validates (tokens : list Token) (offset : nat) (f : Fix) : bool :=
  check_syntax (apply_fix tokens offset f).

(** Modelled from the spec: a candidate is kept when it validates and the
    collection does not hold it yet; it is added at the end. *)
Definition try_fix (self : Fixes) (f : Fix) : Fixes :=
  if validates (tokens self) (offset self) f
  then if existsb (Fix_eqb f) (fixes self) then self
       else mkFixes (tokens self) (offset self) (fixes self ++ [f])
  else self.

(** Modelled from the spec: [Fixes.try_remove(pos)]. *)
Definition try_remove (self : Fixes) (pos : nat) : Fixes :=
  try_fix self (mkFix remove pos None).

(** Modelled from the spec: [Fixes.try_insert(pos, token)]. *)
Definition try_insert (self : Fixes) (pos : nat) (t : Token) : Fixes :=
  try_fix self (mkFix insert pos (Some t)).
End Fixes.

End Detect.

(** ** mutate.py: what the harness reads of a mutation *)

Module Mutate.
(** Modelled from the spec: [mutate.py] is not among the sources.  The
    fields are the ones the main loop reads: [name], [location], [token]. *)
Record Mutation : Type := mkMutation {
  name : Detect.FixKind;
  location : nat;
  token : option nat
}.
End Mutate.

(** ** evaluate.py *)

Module Evaluate.
Import Py Np Vocabulary Corpus TrainingUtils VectorizeTokens Detect.

(** [fix_zeros], lines 31-37.  The loop walks [enumerate(preds)], which
    reads the array as it stands, and stores [epsilon] at the entries close
    to zero.  The value is the array after the call. *)
Definition fix_zeros_step (epsilon : Q) (preds : ndarray) (i : nat) : ndarray :=
  match nth_error preds i with
  | Some pred =>
      if isclose pred 0%Q default_rel_tol default_abs_tol
      then setitem preds i epsilon
      else preds
  | None => preds
  end.

(** [fix_zeros(preds, epsilon)]: the contents of [preds] after the call. *)
Definition fix_zeros (epsilon : Q) (preds : ndarray) : ndarray :=
  fold_left (fix_zeros_step epsilon) (seq 0 (length preds)) preds.

(** [harmonic_mean_agreement], lines 42-53: the two arrays after the call
    and the value returned.  When both arguments are one array it is fixed
    twice, and the second pass finds no zero.  A mean with an entry that is
    not finite is not ranked: the value is then [NonFinite]. *)
Definition harmonic_mean_agreement (prefix_pred suffix_pred : ndarray)
    : ndarray * ndarray * result npfloat :=
  let prefix_pred := fix_zeros float_info_epsilon prefix_pred in
  let suffix_pred := fix_zeros float_info_epsilon suffix_pred in
  (prefix_pred, suffix_pred,
   mean <- harmonic_mean prefix_pred suffix_pred ;;
   match all_finite mean with
   | None => Ok NonFinite
   | Some mean =>
       let paired_rankings := rank mean in
       match paired_rankings with
       | [] => Raise IndexError
       | (_, min_prob) :: _ => Ok (Finite min_prob)
       end
   end).

(** [squared_error_agreement], lines 56-64. *)
Definition squared_error_agreement (prefix_pred suffix_pred : ndarray)
    : result Q :=
  diff <- subtract prefix_pred suffix_pred ;;
  let entropy := Np.sum (square diff) in
  Ok (- entropy)%Q.

(** *** SensibilityForEvaluation *)

Definition sentence_length : nat := 20.

(** [contexts], lines 155-165. *)
Definition contexts (file_vector : list nat) : list (Sentence * Sentence) :=
  let sent_forwards := Sentences file_vector sentence_length false in
  let sent_backwards := Sentences file_vector sentence_length true in
  zip sent_forwards (chop_prefix sentence_length sent_backwards).

(** What the detection loop of [rank_and_fix] carries from one position to
    the next. *)
Record detection : Type := mkDetection {
  least_agreements : list Agreement;
  forwards_predictions : list (option nat);
  backwards_predictions : list (option nat)
}.

(** [==] between an id and an entry of a prediction list. *)
Definition option_nat_eqb (a b : option nat) : bool :=
  match a, b with
  | Some x, Some y => x =? y
  | None, None => true
  | _, _ => false
  end.

Section Sensibility.
(** The two predictors behind the prediction cache, the syntax checker and
    the vocabulary are external. *)
Variable forwards_predict : list nat -> ndarray.
Variable backwards_predict : list nat -> ndarray.
Variable check_syntax : list Token -> bool.
Variable to_index : string -> nat.
Variable id_to_token : nat -> Token.

(** One turn of the loop of lines 101-132.  The line printed is not kept,
    the exceptions its arguments can raise are. *)
Definition score_position (tokens : list Token) (file_vector : list nat)
    (st : detection) (item : nat * (Sentence * Sentence))
    : result detection :=
  let '(index, ((prefix, token), (suffix, _))) := item in
  actual <- getitem file_vector index ;;
  assert (token =? actual) ;;;
  let prefix_pred := forwards_predict prefix in
  let suffix_pred := backwards_predict suffix in
  assert (isclose (Py.sum prefix_pred) 1%Q (1 # 100)%Q default_abs_tol) ;;;
  assert (isclose (Py.sum suffix_pred) 1%Q (1 # 100)%Q default_abs_tol) ;;;
  top_next_prediction <- index_of_max prefix_pred ;;
  let forwards_predictions :=
    forwards_predictions st ++ [Some top_next_prediction] in
  top_prev_prediction <- index_of_max suffix_pred ;;
  let backwards_predictions :=
    backwards_predictions st ++ [Some top_prev_prediction] in
  stored <- getitem forwards_predictions index ;;
  assert (option_nat_eqb (Some top_next_prediction) stored) ;;;
  probability <- squared_error_agreement prefix_pred suffix_pred ;;
  let agreement := mkAgreement probability index in
  snd (harmonic_mean_agreement prefix_pred suffix_pred) ;;;
  getitem tokens (index - 1) ;;;
  Ok (mkDetection (least_agreements st ++ [agreement])
                  forwards_predictions backwards_predictions).

(** [for item in items: st = body(st, item)], an exception ends the loop. *)
Fixpoint for_each {S I : Type} (body : S -> I -> result S) (items : list I)
    (st : S) : result S :=
  match items with
  | [] => Ok st
  | item :: items' => st' <- body st item ;; for_each body items' st'
  end.

(** The detection loop, lines 91-132, from the empty list of agreements
    and the two lists of [padding] times [None]. *)
Definition detect (tokens : list Token) (file_vector : list nat)
    : result detection :=
  let padding := sentence_length in
  for_each (score_position tokens file_vector)
           (enumerate padding (contexts file_vector))
           (mkDetection [] (repeat None padding) (repeat None padding)).

(** [id_to_token(predictions[pos])]. *)
Definition predicted_token (predictions : list (option nat)) (pos : nat)
    : result Token :=
  id <- getitem predictions pos ;;
  match id with
  | Some id => Ok (id_to_token id)
  | None => Raise TypeError
  end.

(** The body of the loop of lines 138-148. *)
Definition synthesize (st : detection) (fixes : Fixes)
    (disagreement : Agreement) : result Fixes :=
  let pos := index disagreement in
  let fixes := try_remove check_syntax fixes pos in
  next <- predicted_token (forwards_predictions st) pos ;;
  let fixes := try_insert check_syntax fixes pos next in
  prev <- predicted_token (backwards_predictions st) pos ;;
  let fixes := try_insert check_syntax fixes pos prev in
  Ok fixes.

(** [rank_and_fix], lines 78-153, from the tokens of the file on. *)
Definition rank_and_fix (tokens : list Token)
    : result (list Agreement * option Fix) :=
  let file_vector := vectorize_tokens to_index tokens in
  st <- detect tokens file_vector ;;
  let fixes := new_Fixes tokens 1 in
  let least_agreements := list_sort Agreement_ltb (least_agreements st) in
  fixes <- for_each (synthesize st) (firstn 3 least_agreements) fixes ;;
  let fix_ := match Detect.fixes fixes with
              | [] => None
              | f :: _ => Some f
              end in
  Ok (least_agreements, fix_).
End Sensibility.

(** *** The main loop *)

(** An entry of [('start',) + tokens + ('end',)]: a string, which has no
    [line], or a token. *)
Inductive entry : Type :=
| Sentinel (s : string)
| Tok (t : Token).

(** [e.line]. *)
Definition line_of (e : entry) : result nat :=
  match e with
  | Sentinel _ => Raise AttributeError
  | Tok t => Ok (line t)
  end.

(** The LOAD step, lines 248-257: the last assertion compares
    [len(tokens)] with itself. *)
Definition load (vector : list nat) (tokens : list Token)
    : result (list entry) :=
  first <- getitem vector 0 ;;
  assert (first =? 0) ;;;
  final <- getlast vector ;;
  assert (final =? 99) ;;;
  let tokens := Sentinel "start" :: map Tok tokens ++ [Sentinel "end"] in
  assert (length tokens =? length tokens) ;;;
  Ok tokens.

(** [first_with_line_no], lines 223-226. *)
Fixpoint first_with_line_no_from (rank : nat) (disagreements : list Agreement)
    (correct_line : nat) (tokens : list entry) : result (option nat) :=
  match disagreements with
  | [] => Ok None
  | disagreement :: rest =>
      e <- getitem tokens (index disagreement) ;;
      l <- line_of e ;;
      if l =? correct_line then Ok (Some rank)
      else first_with_line_no_from (S rank) rest correct_line tokens
  end.

(** [enumerate(disagreements, start=1)]. *)
Definition first_with_line_no := first_with_line_no_from 1.

(** A row of [results.csv]. *)
Record Row : Type := mkRow {
  fold : nat;
  file : string;
  mkind : FixKind;
  mtoken : option nat;
  mpos : nat;
  correct_line : nat;
  line_of_top_rank : nat;
  rank_correct_line : option nat;
  fixed : bool;
  fkind : option FixKind;
  fpos : option nat;
  ftoken : option Token;
  same_fix : option unit
}.

(** The RECORD step, lines 268-287. *)
Definition record (fold_no : nat) (file_hash : string)
    (mutation : Mutate.Mutation) (tokens : list entry) (correct_line : nat)
    (ranked_locations : list Agreement) (fix_ : option Fix) : result Row :=
  top <- getitem ranked_locations 0 ;;
  e <- getitem tokens (index top) ;;
  line_of_top_location <- line_of e ;;
  rank_correct_line <-
    first_with_line_no ranked_locations correct_line tokens ;;
  Ok (mkRow fold_no file_hash
            (Mutate.name mutation) (Mutate.token mutation)
            (Mutate.location mutation)
            correct_line line_of_top_location rank_correct_line
            (match fix_ with Some _ => true | None => false end)
            (match fix_ with Some f => Some (kind f) | None => None end)
            (match fix_ with Some f => Some (location f) | None => None end)
            (match fix_ with Some f => token f | None => None end)
            None).

Section Trial.
Variable forwards_predict : list nat -> ndarray.
Variable backwards_predict : list nat -> ndarray.
Variable check_syntax : list Token -> bool.
Variable to_index : string -> nat.
Variable id_to_token : nat -> Token.

(** One turn of the main loop, lines 243-287.  [vector] and [tokens] are
    what the two stores hold for the file, [mutated_tokens] what the
    tokenizer returns for the mutated file. *)
Definition trial (fold_no : nat) (file_hash : string)
    (vector : list nat) (tokens : list Token)
    (mutation : Mutate.Mutation) (mutated_tokens : list Token)
    : result Row :=
  tokens <- load vector tokens ;;
  e <- getitem tokens (Mutate.location mutation) ;;
  correct_line <- line_of e ;;
  ranked <- rank_and_fix forwards_predict backwards_predict check_syntax
              to_index id_to_token mutated_tokens ;;
  let '(ranked_locations, fix_) := ranked in
  record fold_no file_hash mutation tokens correct_line ranked_locations fix_.
End Trial.

End Evaluate.

(** ** The vocabulary of the properties *)

Module Props.
Import Py Np Corpus TrainingUtils VectorizeTokens Detect Evaluate.

(** [x] occurs in [l] before [y]. *)
Definition precedes {A : Type} (x y : A) (l : list A) : Prop :=
  exists l1 l2 l3, l = l1 ++ x :: l2 ++ y :: l3.

(** The order a stable sort by [ltb] leaves behind: strictly smaller first,
    and among equivalent elements the order [before] of the input. *)
Definition stable_order {A : Type} (ltb : A -> A -> bool)
    (before : A -> A -> Prop) (a b : A) : Prop :=
  ltb a b = true \/ (ltb a b = false /\ ltb b a = false /\ before a b).

(** The sum of the squared element-wise differences of two vectors. *)
Fixpoint sum_squared_differences (p_fwd p_bwd : ndarray) : Q :=
  match p_fwd, p_bwd with
  | x :: p_fwd', y :: p_bwd' =>
      ((x - y) ^ 2 + sum_squared_differences p_fwd' p_bwd')%Q
  | _, _ => 0%Q
  end.

(** The comparison [rank] sorts by: the key is the probability. *)
Definition by_probability (a b : nat * Q) : bool := Py.Qltb (snd a) (snd b).

(** Probability descending, ties by id ascending. *)
Definition rank_order (a b : nat * Q) : Prop :=
  (snd b < snd a)%Q \/ ((snd a == snd b)%Q /\ fst a < fst b).

(** What [fix_zeros] stores for an entry. *)
Definition zero_to_epsilon (epsilon x : Q) : Q :=
  if Qeq_bool x 0%Q then epsilon else x.

(** The id recorded as top prediction at a position. *)
Definition top_prediction (predictions : list (option nat)) (pos : nat) : nat :=
  match nth pos predictions None with
  | Some id => id
  | None => 0
  end.

(** The candidates generated for one disagreement, in generation order. *)
Definition candidates (id_to_token : nat -> Token) (st : detection)
    (disagreement : Agreement) : list Fix :=
  let pos := index disagreement in
  [ mkFix remove pos None;
    mkFix insert pos
      (Some (id_to_token (top_prediction (forwards_predictions st) pos)));
    mkFix insert pos
      (Some (id_to_token (top_prediction (backwards_predictions st) pos))) ].

(** Both top predictions are on record for every position scored so far. *)
Definition predictions_recorded (st : detection) : Prop :=
  Forall (fun a =>
            exists i j,
              nth_error (forwards_predictions st) (index a) = Some (Some i)
              /\ nth_error (backwards_predictions st) (index a) = Some (Some j))
         (least_agreements st).

(** The positions the detection loop visits, with their two windows. *)
Definition scored_positions (file_vector : list nat)
    : list (nat * (Sentence * Sentence)) :=
  enumerate sentence_length (contexts file_vector).

(** The loop visits [k] and fetches there the predictions [fwd] and [bwd]. *)
Definition predicted_at (forwards_predict backwards_predict : list nat -> ndarray)
    (file_vector : list nat) (k : nat) (fwd bwd : ndarray) : Prop :=
  exists prefix t suffix t',
    In (k, ((prefix, t), (suffix, t'))) (scored_positions file_vector)
    /\ forwards_predict prefix = fwd
    /\ backwards_predict suffix = bwd.

End Props.

(** ** A small file, two stub predictors *)

Module Sample.
Import Py Np Corpus Detect.

(** Forty-two tokens, one per line; the file vector has 44 entries and the
    loop visits the positions 20 to 42. *)
Definition tokens : list Token :=
  map (fun n => mkToken "Punctuator" ";" n) (seq 1 42).

Definition to_index (text : string) : nat := 7.

Definition id_to_token (id : nat) : Token :=
  mkToken "Identifier" "x" id.

(** The forward predictor is sure of id 0 where the window still holds the
    start sentinel, the backward predictor sure of id 1 until its window
    begins at the end sentinel; elsewhere they say half and half. *)
Definition forwards_predict (prefix : list nat) : ndarray :=
  if hd 0 prefix =? 0 then [1%Q; 0%Q; 0%Q] else [(1 # 2)%Q; (1 # 2)%Q; 0%Q].

Definition backwards_predict (suffix : list nat) : ndarray :=
  if hd 0 suffix =? 99 then [(1 # 2)%Q; (1 # 2)%Q; 0%Q]
  else [0%Q; 1%Q; 0%Q].

(** A checker that accepts the file once a token is added, and one that
    accepts nothing. *)
Definition accepts_one_more (stream : list Token) : bool :=
  length stream =? 43.

Definition accepts_nothing (stream : list Token) : bool := false.

(** The file with its fifth entry removed, as a trial of the harness. *)
Definition mutation : Mutate.Mutation := Mutate.mkMutation remove 5 None.

Definition mutated_tokens : list Token := firstn 4 tokens ++ skipn 5 tokens.

(** A file of three tokens, and the same file with its second entry
    removed. *)
Definition short_tokens : list Token :=
  map (fun n => mkToken "Punctuator" ";" n) (seq 1 3).

Definition short_mutation : Mutate.Mutation := Mutate.mkMutation remove 2 None.

Definition short_mutated_tokens : list Token :=
  firstn 1 short_tokens ++ skipn 2 short_tokens.

(** The tokens of the file between the two strings of the LOAD step. *)
Definition entries : list Evaluate.entry :=
  Evaluate.Sentinel "start" :: map Evaluate.Tok tokens
    ++ [Evaluate.Sentinel "end"].

(** What the detection loop returns on the mutated file. *)
Definition detected : Evaluate.detection :=
  Eval vm_compute in
    match Evaluate.detect forwards_predict backwards_predict mutated_tokens
            (VectorizeTokens.vectorize_tokens to_index mutated_tokens) with
    | Ok st => st
    | Raise _ => Evaluate.mkDetection [] [] []
    end.

End Sample.

(** ** Python strings *)

Module Text.

(** [c.isspace()] for a character of ASCII text: tab to carriage return,
    the four separators 28 to 31, and the space. *)
Definition isspace (c : Ascii.ascii) : bool :=
  let n := Ascii.nat_of_ascii c in
  ((9 <=? n) && (n <=? 13)) || ((28 <=? n) && (n <=? 32)).

Fixpoint lstrip (s : string) : string :=
  match s with
  | EmptyString => EmptyString
  | String c s' => if isspace c then lstrip s' else s
  end.

Fixpoint rstrip (s : string) : string :=
  match s with
  | EmptyString => EmptyString
  | String c s' =>
      match rstrip s' with
      | EmptyString => if isspace c then EmptyString else String c EmptyString
      | r => String c r
      end
  end.

(** [s.strip()]. *)
Definition strip (s : string) : string := rstrip (lstrip s).

(** [s.split()]: the maximal runs of characters that are not white space;
    [cur] is the run being read. *)
Fixpoint split_from (s cur : string) : list string :=
  match s with
  | EmptyString =>
      match cur with
      | EmptyString => []
      | _ => [cur]
      end
  | String c s' =>
      if isspace c
      then match cur with
           | EmptyString => split_from s' EmptyString
           | _ => cur :: split_from s' EmptyString
           end
      else split_from s' (cur ++ String c EmptyString)
  end.

Definition split (s : string) : list string := split_from s EmptyString.

(** [str(n)] for a non-negative integer. *)
Definition str (n : nat) : string :=
  DecimalString.NilZero.string_of_uint (Nat.to_uint n).

End Text.

(** ** evaluate.py: the fold table *)

Module Folds.
Import Text.

(** A dict from file hash to fold number: its items in insertion order, one
    per key. *)
Definition dict : Type := list (string * nat).

(** [d[k]]; [None] stands for the [KeyError]. *)
Fixpoint dict_get (d : dict) (k : string) : option nat :=
  match d with
  | [] => None
  | (k', v) :: d' => if String.eqb k' k then Some v else dict_get d' k
  end.

(** [d[k] = v]: the value of an existing key is replaced where it stands, a
    new key goes to the end. *)
Fixpoint dict_set (d : dict) (k : string) (v : nat) : dict :=
  match d with
  | [] => [(k, v)]
  | (k', v') :: d' =>
      if String.eqb k' k then (k', v) :: d' else (k', v') :: dict_set d' k v
  end.

(** How [populate_folds] ends: it returns, or [open] does not find a file. *)
Inductive outcome : Type :=
| Done
| FileNotFoundError (name : string).

(** ['test_set_hashes.' + str(fold)]. *)
Definition hash_file_name (fold : nat) : string :=
  ("test_set_hashes." ++ str fold)%string.

(** The inner loop of [populate_folds], lines 206-207, over the lines of one
    file. *)
Definition populate_fold (fold : nat) (hash_file : list string) (FOLDS : dict)
    : dict :=
  fold_left (fun FOLDS file_hash => dict_set FOLDS (strip file_hash) fold)
            hash_file FOLDS.

(** The outer loop, lines 204-205, over the folds that are left.  [files]
    gives the lines of a file by name.  The dict is global: what was stored
    before a missing file stays stored. *)
Fixpoint populate_from (folds : list nat) (files : string -> option (list string))
    (FOLDS : dict) : dict * outcome :=
  match folds with
  | [] => (FOLDS, Done)
  | fold :: folds' =>
      match files (hash_file_name fold) with
      | None => (FOLDS, FileNotFoundError (hash_file_name fold))
      | Some hash_file =>
          populate_from folds' files (populate_fold fold hash_file FOLDS)
      end
  end.

(** [populate_folds], lines 200-207. *)
Definition populate_folds (files : string -> option (list string)) (FOLDS : dict)
    : dict * outcome :=
  populate_from [0; 1; 2; 3; 4] files FOLDS.

End Folds.

(** ** evaluate.py: the names of the two models *)

Module Recipes.
Import Text.

(** ['javascript-{dir}-300-20.{fold}.5.h5'.format(dir=dir, fold=fold_no)],
    lines 71-73. *)
Definition name_format (dir : string) (fold_no : nat) : string :=
  ("javascript-" ++ dir ++ "-300-20." ++ str fold_no ++ ".5.h5")%string.

Definition forwards_name (fold_no : nat) : string := name_format "f" fold_no.

Definition backwards_name (fold_no : nat) : string := name_format "b" fold_no.

End Recipes.

(** ** detect.py: the report of the main loop *)

Module DetectMain.
Import Py Np Detect.

(** A line of the report: a guess with its percentage, green when it is the
    actual token, or the line that names the actual token. *)
Inductive printed : Type :=
| Guess (prob : Q) (token_id : nat) (green : bool)
| Actual (actual : nat).

(** The body of the loop of lines 127-137. *)
Definition show_guess (actual : nat) (state : bool * list printed)
    (guess : nat * Q) : bool * list printed :=
  let '(found_it, lines) := state in
  let '(token_id, weight) := guess in
  let color := token_id =? actual in
  let found_it := if token_id =? actual then true else found_it in
  let prob := (weight * 100)%Q in
  (found_it, lines ++ [Guess prob token_id color]).

(** Lines 121-141 for one sentence, after the heading: the five best
    guesses, then the actual token if it is not among them. *)
Definition report (predictions : ndarray) (actual : nat) : bool * list printed :=
  let '(found_it, lines) :=
    fold_left (show_guess actual) (firstn 5 (rank predictions)) (false, []) in
  (found_it, if found_it then lines else lines ++ [Actual actual]).

End DetectMain.

(** ** evaluate.py: the result sink *)

Module ResultsCsv.
Import Py Corpus Detect Evaluate Text.

(** A value handed to the writer. *)
Inductive cell : Type :=
| Int (n : nat)
| Str (s : string)
| Bool (b : bool)
| Kind (k : FixKind)
| TokenCell (t : Token)
| NoneCell.

(** [Results.FIELDS], lines 177-182. *)
Definition FIELDS : list string :=
  split "
        fold file
        mkind mpos mtoken
        correct_line line_of_top_rank rank_correct_line
        fixed fkind fpos ftoken same_fix
    ".

Definition of_option {A : Type} (f : A -> cell) (o : option A) : cell :=
  match o with
  | Some a => f a
  | None => NoneCell
  end.

(** The keyword arguments of [results.write], lines 273-287, in the order
    of the call. *)
Definition kwargs (r : Row) : list (string * cell) :=
  [ ("fold", Int (fold r));
    ("file", Str (file r));
    ("mkind", Kind (mkind r));
    ("mtoken", of_option Int (mtoken r));
    ("mpos", Int (mpos r));
    ("correct_line", Int (correct_line r));
    ("line_of_top_rank", Int (line_of_top_rank r));
    ("rank_correct_line", of_option Int (rank_correct_line r));
    ("fixed", Bool (fixed r));
    ("fkind", of_option Kind (fkind r));
    ("fpos", of_option Int (fpos r));
    ("ftoken", of_option TokenCell (ftoken r));
    ("same_fix", NoneCell) ]%string.

(** [rowdict.get(key, restval)], with the empty string as [restval]. *)
Definition get_or_restval (rowdict : list (string * cell)) (key : string) : cell :=
  match find (fun kv => String.eqb (fst kv) key) rowdict with
  | Some kv => snd kv
  | None => Str EmptyString
  end.

(** [csv.DictWriter.writerow]: a key outside the field names is a
    [ValueError]; the cells are written in the order of the field names. *)
Definition writerow (fieldnames : list string) (rowdict : list (string * cell))
    : result (list cell) :=
  if forallb (fun kv => existsb (String.eqb (fst kv)) fieldnames) rowdict
  then Ok (map (get_or_restval rowdict) fieldnames)
  else Raise ValueError.

(** [Results.write], lines 193-195. *)
Definition write (r : Row) : result (list cell) := writerow FIELDS (kwargs r).

End ResultsCsv.

(** ** More vocabulary of the properties *)

Module MoreProps.
Import Py Np Corpus Detect Evaluate.

(** Ascending by score, ties by index. *)
Definition agreement_le (a b : Agreement) : Prop :=
  (probability a < probability b)%Q
  \/ ((probability a == probability b)%Q /\ index a <= index b).

(** [a] comes before [b] in a ranking: its probability is higher, or the
    same with a smaller id. *)
Definition outranksb (a b : nat * Q) : bool :=
  Qltb (snd b) (snd a) || (Qeq_bool (snd a) (snd b) && (fst a <? fst b)).

(** The hash [h] is a line, stripped, of the file of fold [fold]. *)
Definition listed (files : string -> option (list string)) (fold : nat)
    (h : string) : bool :=
  match files (Folds.hash_file_name fold) with
  | Some hash_file => existsb (fun l => String.eqb (Text.strip l) h) hash_file
  | None => false
  end.

(** The line of the token an entry of the padded token tuple holds. *)
Definition entry_line (entries : list entry) (i : nat) : option nat :=
  match nth_error entries i with
  | Some (Tok t) => Some (line t)
  | _ => None
  end.

End MoreProps.

(** ** More stubs for the small file *)

Module MoreSample.
Import Py Np Corpus Detect.

(** A checker that accepts the file once a token is gone. *)
Definition accepts_one_less (stream : list Token) : bool :=
  length stream =? 41.

(** A line of a hash file, with its line end. *)
Definition hash_line (h : string) : string :=
  (h ++ String (Ascii.ascii_of_nat 10) EmptyString)%string.

(** Five hash files; the second hash is listed for fold 0 and again for
    fold 1. *)
Definition hash_files (name : string) : option (list string) :=
  if String.eqb name "test_set_hashes.0"
  then Some [hash_line "0a1b2c"; hash_line "3d4e5f"]
  else if String.eqb name "test_set_hashes.1"
  then Some [hash_line "3d4e5f"]
  else if String.eqb name "test_set_hashes.2" then Some []
  else if String.eqb name "test_set_hashes.3" then Some []
  else if String.eqb name "test_set_hashes.4" then Some []
  else None.

(** The same directory without the file of fold 2. *)
Definition hash_files_without_2 (name : string) : option (list string) :=
  if String.eqb name "test_set_hashes.2" then None else hash_files name.

End MoreSample.

(** ** numpy at float64 *)

Module Float64.
Import Py.

(** A one-dimensional array of dtype float64, with the arithmetic of the
    machine: rounding to nearest, underflow to zero, signed zeros. *)
Definition ndarray : Type := list PrimFloat.float.

Fixpoint zip_with (f : PrimFloat.float -> PrimFloat.float -> PrimFloat.float)
    (a b : ndarray) : ndarray :=
  match a, b with
  | x :: a', y :: b' => f x y :: zip_with f a' b'
  | _, _ => []
  end.

(** An element-wise binary operation, with the shapes of [Np.elementwise]. *)
Definition elementwise (f : PrimFloat.float -> PrimFloat.float -> PrimFloat.float)
    (a b : ndarray) : result ndarray :=
  if length a =? length b then Ok (zip_with f a b)
  else if length b =? 1 then Ok (map (fun x => f x (hd PrimFloat.zero b)) a)
  else if length a =? 1 then Ok (map (fun y => f (hd PrimFloat.zero a) y) b)
  else Raise ValueError.

Definition subtract : ndarray -> ndarray -> result ndarray :=
  elementwise PrimFloat.sub.

(** [a ** 2]: one multiplication per entry. *)
Definition square (a : ndarray) : ndarray :=
  map (fun x => PrimFloat.mul x x) a.

(** [a.sum()] for an array of fewer than eight entries, which numpy adds
    from left to right beginning with the first entry; [0.0] for the empty
    array. *)
Definition sum (a : ndarray) : PrimFloat.float :=
  match a with
  | [] => PrimFloat.zero
  | x :: a' => fold_left PrimFloat.add a' x
  end.

(** [squared_error_agreement], lines 56-64, on float64 arrays. *)
Definition squared_error_agreement (prefix_pred suffix_pred : ndarray)
    : result PrimFloat.float :=
  diff <- subtract prefix_pred suffix_pred ;;
  let entropy := sum (square diff) in
  Ok (PrimFloat.opp entropy).

End Float64.

(** ** Two float64 predictions *)

Module Float64Sample.
Import PrimFloat.

(** The float that the literal [1e-200] denotes. *)
Definition tiny : float := 0x1.87e92154ef7acp-665%float.

(** [[1.0, 1e-200]] and [[1.0, 0.0]]: no entry is negative and each array
    adds up to exactly 1.0. *)
Definition prefix_pred : Float64.ndarray := [one; tiny].

Definition suffix_pred : Float64.ndarray := [one; zero].

End Float64Sample.

(** ** The detection loop over any pairs of windows *)

Module Loop.
Import Py Np Corpus TrainingUtils Detect Evaluate.

(** The detection loop of [rank_and_fix], lines 91-132, over the pairs of
    windows [ctxs] that [self.contexts(file_vector)] yields, whatever they
    are: [Evaluate.detect] is this loop over [Evaluate.contexts]. *)
Definition detect_over (forwards_predict backwards_predict : list nat -> ndarray)
    (tokens : list Token) (file_vector : list nat)
    (ctxs : list (Sentence * Sentence)) : result detection :=
  let padding := sentence_length in
  for_each (score_position forwards_predict backwards_predict tokens
              file_vector)
           (enumerate padding ctxs)
           (mkDetection [] (repeat None padding) (repeat None padding)).


End Loop.

(** ** A file of distinct ids *)

Module LoopSample.
Import Py TrainingUtils Detect Evaluate.

(** The vector of a file of forty-two tokens whose ids are 1 to 42. *)
Definition file_vector : list nat := 0 :: seq 1 42 ++ [99].





End LoopSample.

(** ** Facts about the Python built-ins *)

Section SortFacts.
Import Py Props.
Context {A : Type} (ltb : A -> A -> bool).

Lemma insort_Permutation (x : A) (l : list A) :
  Permutation (insort ltb x l) (x :: l).
Proof.
  induction l as [|y ys IH]; simpl.
  - apply Permutation_refl.
  - destruct (ltb y x).
    + eapply perm_trans; [apply perm_skip, IH | apply perm_swap].
    + apply Permutation_refl.
Qed.

Lemma list_sort_Permutation (l : list A) : Permutation (list_sort ltb l) l.
Proof.
  induction l as [|x l IH]; simpl.
  - constructor.
  - eapply perm_trans; [apply insort_Permutation | now apply perm_skip].
Qed.

Lemma list_sort_In (x : A) (l : list A) : In x (list_sort ltb l) <-> In x l.
Proof.
  split; apply Permutation_in;
    [ | apply Permutation_sym ]; apply list_sort_Permutation.
Qed.

Lemma list_sort_Forall (P : A -> Prop) (l : list A) :
  Forall P l -> Forall P (list_sort ltb l).
Proof.
  rewrite !Forall_forall. intros H x Hx. now apply H, list_sort_In.
Qed.

(** A strict weak order: asymmetric, and [>=] is transitive. *)
Hypothesis ltb_asym : forall a b, ltb a b = true -> ltb b a = false.
Hypothesis ltb_negtrans :
  forall a b c, ltb a b = false -> ltb b c = false -> ltb a c = false.

Variable before : A -> A -> Prop.

Lemma insort_sorted (x : A) (s : list A) :
  StronglySorted (stable_order ltb before) s ->
  Forall (before x) s ->
  StronglySorted (stable_order ltb before) (insort ltb x s).
Proof.
  induction s as [|y ys IH]; intros Hs Hx; simpl.
  - repeat constructor.
  - inversion Hs as [|? ? Hys Hy]; subst.
    inversion Hx as [|? ? Hxy Hxys]; subst.
    destruct (ltb y x) eqn:Eyx.
    + constructor; [now apply IH |].
      apply (Permutation_Forall (Permutation_sym (insort_Permutation x ys))).
      constructor; [now left | exact Hy].
    + constructor; [exact Hs |].
      constructor.
      * destruct (ltb x y) eqn:Exy; [now left | now right].
      * rewrite Forall_forall in Hy, Hxys |- *. intros z Hz.
        destruct (ltb x z) eqn:Exz; [now left | right].
        repeat split; auto.
        apply ltb_negtrans with y; auto.
        destruct (Hy z Hz) as [H | (_ & H & _)]; auto.
Qed.

Lemma list_sort_sorted (l : list A) :
  StronglySorted before l ->
  StronglySorted (stable_order ltb before) (list_sort ltb l).
Proof.
  induction 1 as [|x l Hl IH Hx]; simpl.
  - constructor.
  - apply insort_sorted; [exact IH | now apply list_sort_Forall].
Qed.

Lemma sorted_app_In (R : A -> A -> Prop) (l1 l2 : list A) (x y : A) :
  StronglySorted R (l1 ++ x :: l2) -> In y l2 -> R x y.
Proof.
  induction l1 as [|z l1 IH]; simpl; intros H Hy.
  - inversion H as [|? ? _ HF]; subst.
    rewrite Forall_forall in HF. now apply HF.
  - inversion H; subst. now apply IH.
Qed.

(** In a sorted list a strictly smaller element comes first. *)
Lemma sorted_precedes (l : list A) (a b : A) :
  StronglySorted (stable_order ltb before) l ->
  In a l -> In b l -> ltb a b = true -> precedes a b l.
Proof.
  intros Hs Ha Hb Hab.
  destruct (in_split _ _ Ha) as (l1 & l2 & ->).
  apply in_app_or in Hb. destruct Hb as [Hb | [Hb | Hb]].
  - exfalso. destruct (in_split _ _ Hb) as (m1 & m2 & ->).
    rewrite <- app_assoc in Hs. simpl in Hs.
    assert (Hba : stable_order ltb before b a).
    { eapply sorted_app_In; [exact Hs |]. apply in_or_app. right. now left. }
    destruct Hba as [H | (_ & H & _)].
    + apply ltb_asym in H. congruence.
    + congruence.
  - subst b. apply ltb_asym in Hab as H. congruence.
  - destruct (in_split _ _ Hb) as (m1 & m2 & ->).
    now exists l1, m1, m2.
Qed.
End SortFacts.

Lemma StronglySorted_app {A : Type} (R : A -> A -> Prop) (l1 l2 : list A) :
  StronglySorted R l1 -> StronglySorted R l2 ->
  (forall a b, In a l1 -> In b l2 -> R a b) ->
  StronglySorted R (l1 ++ l2).
Proof.
  induction l1 as [|x l1 IH]; simpl; intros H1 H2 H; [exact H2 |].
  inversion H1 as [|? ? Hs HF]; subst.
  constructor.
  - apply IH; auto.
  - apply Forall_app. split; [exact HF |].
    rewrite Forall_forall. intros b Hb. apply H; auto.
Qed.

Lemma StronglySorted_rev {A : Type} (R : A -> A -> Prop) (l : list A) :
  StronglySorted R l -> StronglySorted (fun a b => R b a) (rev l).
Proof.
  induction 1 as [|x l Hl IH Hx]; simpl.
  - constructor.
  - apply StronglySorted_app; [exact IH | repeat constructor |].
    intros a b Ha [<- | []].
    rewrite Forall_forall in Hx. apply Hx. now apply in_rev.
Qed.

Lemma StronglySorted_weaken {A : Type} (R S : A -> A -> Prop) (l : list A) :
  (forall a b, In a l -> In b l -> R a b -> S a b) ->
  StronglySorted R l -> StronglySorted S l.
Proof.
  intros HRS H. induction H as [|x l Hl IH Hx].
  - constructor.
  - constructor.
    + apply IH. intros a b Ha Hb. apply HRS; now right.
    + rewrite Forall_forall in Hx |- *. intros b Hb.
      apply HRS; [now left | now right | now apply Hx].
Qed.

(** Comparisons of floats, as propositions. *)
Lemma Qltb_lt (x y : Q) : Py.Qltb x y = true <-> (x < y)%Q.
Proof.
  unfold Py.Qltb. rewrite negb_true_iff, <- not_true_iff_false, Qle_bool_iff.
  split; [apply Qnot_le_lt | apply Qlt_not_le].
Qed.

Lemma Qltb_ge (x y : Q) : Py.Qltb x y = false <-> (y <= x)%Q.
Proof.
  unfold Py.Qltb. now rewrite negb_false_iff, Qle_bool_iff.
Qed.

Lemma Qeq_bool_false (x y : Q) : Qeq_bool x y = false <-> ~ (x == y)%Q.
Proof.
  rewrite <- not_true_iff_false, Qeq_bool_iff. tauto.
Qed.

Ltac qbool :=
  repeat match goal with
  | H : Py.Qltb _ _ = true |- _ => apply Qltb_lt in H
  | H : Py.Qltb _ _ = false |- _ => apply Qltb_ge in H
  | H : Qeq_bool _ _ = true |- _ => apply Qeq_bool_iff in H
  | H : Qeq_bool _ _ = false |- _ => apply Qeq_bool_false in H
  | H : Qle_bool _ _ = true |- _ => apply Qle_bool_iff in H
  | H : (_ <? _) = true |- _ => apply Nat.ltb_lt in H
  | H : (_ <? _) = false |- _ => apply Nat.ltb_ge in H
  | |- Py.Qltb _ _ = true => apply Qltb_lt
  | |- Py.Qltb _ _ = false => apply Qltb_ge
  | |- Qeq_bool _ _ = true => apply Qeq_bool_iff
  | |- Qeq_bool _ _ = false => apply Qeq_bool_false
  | |- (_ <? _) = true => apply Nat.ltb_lt
  | |- (_ <? _) = false => apply Nat.ltb_ge
  end.

Section EnumerateFacts.
Import Py.
Context {A : Type}.

Lemma enumerate_cons (start : nat) (x : A) (l : list A) :
  enumerate start (x :: l) = (start, x) :: enumerate (S start) l.
Proof. reflexivity. Qed.

Lemma enumerate_In_ge (start i : nat) (x : A) (l : list A) :
  In (i, x) (enumerate start l) -> start <= i.
Proof.
  unfold enumerate. intros H. apply in_combine_l in H.
  apply in_seq in H. lia.
Qed.

Lemma enumerate_sorted (start : nat) (l : list A) :
  StronglySorted (fun a b => fst a < fst b) (enumerate start l).
Proof.
  revert start. induction l as [|x l IH]; intros start.
  - constructor.
  - rewrite enumerate_cons. constructor; [apply IH |].
    rewrite Forall_forall. intros [i y] Hi.
    apply enumerate_In_ge in Hi. simpl. lia.
Qed.

Lemma enumerate_nth_In (l : list A) :
  forall (start n : nat) (x : A),
    nth_error l n = Some x -> In (start + n, x) (enumerate start l).
Proof.
  induction l as [|y l IH]; intros start [|n] x H; simpl in H;
    try discriminate.
  - injection H as <-. rewrite Nat.add_0_r, enumerate_cons. now left.
  - rewrite enumerate_cons. right.
    replace (start + S n) with (S start + n) by lia. now apply IH.
Qed.

Lemma enumerate_map (f : nat -> A) (start n : nat) :
  enumerate start (map f (seq start n))
  = map (fun k => (k, f k)) (seq start n).
Proof.
  unfold enumerate. rewrite length_map, length_seq.
  generalize (seq start n). intros l.
  induction l as [|k l IH]; simpl; [reflexivity | now rewrite IH].
Qed.
End EnumerateFacts.

(** ** [detect.rank] *)

Section RankFacts.
Import Py Np Detect Props.

Lemma by_probability_asym (a b : nat * Q) :
  by_probability a b = true -> by_probability b a = false.
Proof. unfold by_probability. intros H. qbool. now apply Qlt_le_weak. Qed.

Lemma by_probability_negtrans (a b c : nat * Q) :
  by_probability a b = false -> by_probability b c = false ->
  by_probability a c = false.
Proof.
  unfold by_probability. intros H1 H2. qbool. now apply Qle_trans with (snd b).
Qed.

Lemma rank_Permutation (predictions : ndarray) :
  Permutation (rank predictions) (enumerate 0 predictions).
Proof.
  unfold rank, sorted.
  eapply perm_trans; [apply Permutation_sym, Permutation_rev |].
  eapply perm_trans; [apply list_sort_Permutation |].
  apply Permutation_sym, Permutation_rev.
Qed.

Lemma rank_sorted (predictions : ndarray) :
  StronglySorted rank_order (rank predictions).
Proof.
  unfold rank, sorted.
  pose proof (StronglySorted_rev (enumerate_sorted 0 predictions)) as Hrev.
  pose proof (list_sort_sorted by_probability by_probability_asym
                by_probability_negtrans Hrev) as Hs.
  apply StronglySorted_rev in Hs.
  eapply StronglySorted_weaken; [| exact Hs].
  intros a b _ _ [H | (H1 & H2 & H3)]; unfold by_probability in *; qbool.
  - now left.
  - right. split; [now apply Qle_antisym | exact H3].
Qed.

Lemma rank_length (predictions : ndarray) :
  length (rank predictions) = length predictions.
Proof.
  rewrite (Permutation_length (rank_Permutation predictions)).
  unfold enumerate. rewrite length_combine, length_seq. lia.
Qed.
End RankFacts.

(** C3: [rank(predictions)] returns the [(id, probability)] pairs of the
    vector, ordered by probability descending with ties broken by id
    ascending; for [0.1, 0.5, 0.4] it is [(1,0.5), (2,0.4), (0,0.1)]. *)
Theorem rank_descending_ties_by_id :
  forall predictions : Np.ndarray,
    Permutation (Detect.rank predictions) (Py.enumerate 0 predictions)
    /\ StronglySorted Props.rank_order (Detect.rank predictions)
    /\ Detect.rank [(1 # 10)%Q; (5 # 10)%Q; (4 # 10)%Q]
       = [(1, (5 # 10)%Q); (2, (4 # 10)%Q); (0, (1 # 10)%Q)].
Proof.
  intros predictions. split; [apply rank_Permutation |].
  split; [apply rank_sorted | reflexivity].
Qed.

(** ** [squared_error_agreement] *)

Section SquaredErrorFacts.
Import Py Np Evaluate Props.
Local Open Scope Q_scope.

Lemma Qsquare (x : Q) : x ^ 2 == x * x.
Proof. reflexivity. Qed.

Lemma Qsquare_nonneg (x : Q) : 0 <= x ^ 2.
Proof.
  rewrite Qsquare.
  destruct (Qlt_le_dec x 0) as [H | H].
  - setoid_replace (x * x) with ((- x) * (- x)) by ring.
    apply Qmult_le_0_compat; lra.
  - now apply Qmult_le_0_compat.
Qed.


Lemma fold_left_Qplus (l : list Q) (a : Q) :
  fold_left Qplus l a == a + fold_left Qplus l 0.
Proof.
  revert a. induction l as [|x l IH]; intros a; simpl.
  - ring.
  - rewrite (IH (a + x)), (IH (0 + x)). ring.
Qed.

Lemma subtract_same_length (p q : ndarray) :
  length p = length q -> subtract p q = Ok (zip_with Qminus p q).
Proof.
  intros H. unfold subtract, elementwise. now rewrite H, Nat.eqb_refl.
Qed.

Lemma sum_square_differences (p q : ndarray) :
  Np.sum (square (zip_with Qminus p q)) == sum_squared_differences p q.
Proof.
  unfold Np.sum. revert q.
  induction p as [|x p IH]; intros [|y q];
    cbn [sum_squared_differences zip_with square map fold_left];
    try reflexivity.
  rewrite fold_left_Qplus, IH. ring.
Qed.

Lemma squared_error_agreement_value (p q : ndarray) :
  length p = length q ->
  exists s, squared_error_agreement p q = Ok s
            /\ s == - sum_squared_differences p q.
Proof.
  intros H. unfold squared_error_agreement.
  rewrite (subtract_same_length p q H). simpl.
  eexists. split; [reflexivity |].
  now rewrite sum_square_differences.
Qed.

Lemma sum_squared_differences_nonneg (p q : ndarray) :
  0 <= sum_squared_differences p q.
Proof.
  revert q. induction p as [|x p IH]; intros [|y q];
    cbn [sum_squared_differences]; try lra.
  pose proof (Qsquare_nonneg (x - y)). pose proof (IH q). lra.
Qed.


End SquaredErrorFacts.




(** ** The detection loop *)

Section ResultFacts.
Import Py.

Lemma bind_Ok {A B : Type} (r : result A) (k : A -> result B) (b : B) :
  bind r k = Ok b -> exists a, r = Ok a /\ k a = Ok b.
Proof. destruct r as [a | e]; simpl; [eauto | discriminate]. Qed.

Lemma assert_Ok (b : bool) (u : unit) : assert b = Ok u -> b = true.
Proof. destruct b; [reflexivity | discriminate]. Qed.

Lemma getitem_Ok {A : Type} (l : list A) (i : nat) (x : A) :
  getitem l i = Ok x <-> nth_error l i = Some x.
Proof.
  unfold getitem. destruct (nth_error l i); split; intros H;
    inversion H; reflexivity.
Qed.
End ResultFacts.

Tactic Notation "bind_inv" hyp(H) "as" ident(a) ident(Ha) :=
  apply bind_Ok in H; destruct H as (a & Ha & H).

Section DetectFacts.
Import Py Np Corpus TrainingUtils Detect Evaluate Props.
Variable forwards_predict : list nat -> ndarray.
Variable backwards_predict : list nat -> ndarray.
Variable tokens : list Token.
Variable file_vector : list nat.

Abbreviation body :=
  (score_position forwards_predict backwards_predict tokens file_vector).

Lemma score_position_Ok (st st' : detection) (k : nat)
    (prefix suffix : list nat) (t t' : nat) :
  body st (k, ((prefix, t), (suffix, t'))) = Ok st' ->
  exists s i j,
    squared_error_agreement (forwards_predict prefix)
                            (backwards_predict suffix) = Ok s
    /\ nth_error file_vector k = Some t
    /\ nth_error (forwards_predictions st ++ [Some i]) k = Some (Some i)
    /\ st' = mkDetection (least_agreements st ++ [mkAgreement s k])
                         (forwards_predictions st ++ [Some i])
                         (backwards_predictions st ++ [Some j]).
Proof.
  unfold score_position. intros H.
  bind_inv H as actual Hactual. apply getitem_Ok in Hactual.
  bind_inv H as u1 Htarget. apply assert_Ok, Nat.eqb_eq in Htarget.
  subst actual.
  bind_inv H as u2 Hsum1. bind_inv H as u3 Hsum2.
  bind_inv H as i Hi. bind_inv H as j Hj.
  bind_inv H as stored Hstored. apply getitem_Ok in Hstored.
  bind_inv H as u4 Hsame. apply assert_Ok in Hsame.
  bind_inv H as s Hs.
  bind_inv H as diagnostic Hdiag. bind_inv H as printed Hprinted.
  injection H as <-.
  exists s, i, j. repeat split; auto.
  destruct stored as [x|]; simpl in Hsame; [| discriminate].
  apply Nat.eqb_eq in Hsame. now subst x.
Qed.

Lemma nth_error_snoc_keep {A : Type} (l : list A) (x y : A) (i : nat) :
  nth_error l i = Some y -> nth_error (l ++ [x]) i = Some y.
Proof.
  intros H. rewrite nth_error_app1; [exact H |].
  apply nth_error_Some. congruence.
Qed.

Lemma detect_loop_recorded (ctxs : list (Sentence * Sentence)) :
  forall (k0 : nat) (st st' : detection),
    for_each body (enumerate k0 ctxs) st = Ok st' ->
    length (backwards_predictions st) = k0 ->
    predictions_recorded st ->
    predictions_recorded st'.
Proof.
  induction ctxs as [|[[prefix t] [suffix t']] ctxs IH];
    intros k0 st st' H Hlen Hrec.
  - simpl in H. now injection H as <-.
  - rewrite enumerate_cons in H. cbn [for_each] in H. bind_inv H as a Ha.
    apply score_position_Ok in Ha.
    destruct Ha as (s & i & j & _ & _ & Hi & ->).
    eapply (IH (S k0)); [exact H | |].
    + simpl. rewrite length_app. simpl. lia.
    + unfold predictions_recorded in *. simpl.
      apply Forall_app. split.
      * eapply Forall_impl; [| exact Hrec].
        intros b (i' & j' & H1 & H2). exists i', j'.
        split; now apply nth_error_snoc_keep.
      * constructor; [| constructor]. exists i, j. simpl.
        split; [exact Hi |].
        rewrite nth_error_app2 by lia.
        now rewrite Hlen, Nat.sub_diag.
Qed.

Lemma detect_loop_scores (items : list (nat * (Sentence * Sentence))) :
  forall st st' : detection,
    for_each body items st = Ok st' ->
    (forall a, In a (least_agreements st) -> In a (least_agreements st'))
    /\ (forall k prefix t suffix t',
           In (k, ((prefix, t), (suffix, t'))) items ->
           exists s,
             squared_error_agreement (forwards_predict prefix)
                                     (backwards_predict suffix) = Ok s
             /\ In (mkAgreement s k) (least_agreements st')).
Proof.
  induction items as [|[k [[prefix t] [suffix t']]] items IH];
    intros st st' H.
  - simpl in H. injection H as <-. split; [auto | intros ? ? ? ? ? []].
  - cbn [for_each] in H. bind_inv H as a Ha.
    apply score_position_Ok in Ha.
    destruct Ha as (s & i & j & Hs & _ & _ & ->).
    destruct (IH _ _ H) as [Hkeep Hnew]. simpl in Hkeep.
    split.
    + intros b Hb. apply Hkeep, in_or_app. now left.
    + intros k1 p1 t1 s1 t1' [E | Hin].
      * injection E as <- <- <- <- <-.
        exists s. split; [exact Hs |].
        apply Hkeep, in_or_app. right. now left.
      * exact (Hnew _ _ _ _ _ Hin).
Qed.
(** The loop records one agreement per position it visits, in order. *)
Lemma detect_loop_indices (items : list (nat * (Sentence * Sentence))) :
  forall st st' : detection,
    for_each body items st = Ok st' ->
    map index (least_agreements st')
    = map index (least_agreements st) ++ map fst items.
Proof.
  induction items as [|[k [[prefix t] [suffix t']]] items IH];
    intros st st' H.
  - simpl in H. injection H as <-. now rewrite app_nil_r.
  - cbn [for_each] in H. bind_inv H as a Ha.
    apply score_position_Ok in Ha.
    destruct Ha as (s & i & j & _ & _ & _ & ->).
    rewrite (IH _ _ H). cbn [least_agreements].
    rewrite map_app, <- app_assoc. reflexivity.
Qed.

Lemma detect_indices (st : detection) :
  detect forwards_predict backwards_predict tokens file_vector = Ok st ->
  map index (least_agreements st) = map fst (scored_positions file_vector).
Proof.
  intros H. unfold detect in H.
  now rewrite (detect_loop_indices _ _ H).
Qed.
End DetectFacts.

(** ** The order of [Agreement] *)

Section AgreementFacts.
Import Py Detect Props.

Lemma Agreement_ltb_asym (a b : Agreement) :
  Agreement_ltb a b = true -> Agreement_ltb b a = false.
Proof.
  unfold Agreement_ltb.
  destruct (Qeq_bool (probability a) (probability b)) eqn:E1,
           (Qeq_bool (probability b) (probability a)) eqn:E2;
    intros H; qbool.
  - lia.
  - exfalso. apply E2. now symmetry.
  - exfalso. apply E1. now symmetry.
  - now apply Qlt_le_weak.
Qed.

Lemma Agreement_ltb_negtrans (a b c : Agreement) :
  Agreement_ltb a b = false -> Agreement_ltb b c = false ->
  Agreement_ltb a c = false.
Proof.
  unfold Agreement_ltb.
  destruct (Qeq_bool (probability a) (probability b)) eqn:E1,
           (Qeq_bool (probability b) (probability c)) eqn:E2,
           (Qeq_bool (probability a) (probability c)) eqn:E3;
    intros H1 H2; qbool; lia || lra.
Qed.

Lemma agreements_sorted (l : list Agreement) :
  StronglySorted (stable_order Agreement_ltb (fun _ _ => True))
                 (list_sort Agreement_ltb l).
Proof.
  apply list_sort_sorted.
  - exact Agreement_ltb_asym.
  - exact Agreement_ltb_negtrans.
  - induction l; constructor; auto.
    rewrite Forall_forall. auto.
Qed.
End AgreementFacts.

(** ** The synthesis of fixes *)

Section FixFacts.
Import Py Np Corpus TrainingUtils VectorizeTokens Detect Evaluate Props.
Variable forwards_predict : list nat -> ndarray.
Variable backwards_predict : list nat -> ndarray.
Variable check_syntax : list Token -> bool.
Variable to_index : string -> nat.
Variable id_to_token : nat -> Token.

Lemma try_fix_stream (self : Fixes) (f : Fix) :
  tokens (try_fix check_syntax self f) = tokens self
  /\ offset (try_fix check_syntax self f) = offset self.
Proof.
  unfold try_fix.
  destruct (validates _ _ _ _); [| auto].
  destruct (existsb _ _); auto.
Qed.

(** The first fix of the collection is the first candidate that
    validated. *)
Lemma fold_try_fix_first (cs : list Fix) :
  forall self : Fixes,
    hd_error (fixes (fold_left (try_fix check_syntax) cs self))
    = match fixes self with
      | [] => find (validates check_syntax (tokens self) (offset self)) cs
      | f :: _ => Some f
      end.
Proof.
  induction cs as [|c cs IH]; intros self; simpl.
  - now destruct (fixes self).
  - rewrite IH.
    destruct (try_fix_stream self c) as [-> ->].
    unfold try_fix.
    destruct (validates check_syntax (tokens self) (offset self) c) eqn:Ev.
    + destruct (fixes self) as [|f fs] eqn:Ef; simpl.
      * reflexivity.
      * destruct (Fix_eqb c f || existsb (Fix_eqb c) fs); simpl;
          rewrite ?Ef; reflexivity.
    + reflexivity.
Qed.

Lemma predicted_token_recorded (predictions : list (option nat))
    (pos i : nat) :
  nth_error predictions pos = Some (Some i) ->
  predicted_token id_to_token predictions pos
  = Ok (id_to_token (top_prediction predictions pos)).
Proof.
  intros H. unfold predicted_token, top_prediction, getitem.
  rewrite H. simpl. now rewrite (nth_error_nth _ _ None H).
Qed.

Lemma synthesize_candidates (st : detection) (self : Fixes) (d : Agreement) :
  (exists i j,
      nth_error (forwards_predictions st) (index d) = Some (Some i)
      /\ nth_error (backwards_predictions st) (index d) = Some (Some j)) ->
  synthesize check_syntax id_to_token st self d
  = Ok (fold_left (try_fix check_syntax) (candidates id_to_token st d) self).
Proof.
  intros (i & j & Hi & Hj). unfold synthesize.
  rewrite (predicted_token_recorded _ _ Hi). simpl.
  rewrite (predicted_token_recorded _ _ Hj). reflexivity.
Qed.

Lemma synthesis_loop (st : detection) (ds : list Agreement) :
  forall self : Fixes,
    Forall (fun d =>
              exists i j,
                nth_error (forwards_predictions st) (index d) = Some (Some i)
                /\ nth_error (backwards_predictions st) (index d)
                   = Some (Some j)) ds ->
    for_each (synthesize check_syntax id_to_token st) ds self
    = Ok (fold_left (try_fix check_syntax)
                    (flat_map (candidates id_to_token st) ds) self).
Proof.
  induction ds as [|d ds IH]; intros self H; [reflexivity |].
  inversion H as [|? ? Hd Hds]; subst.
  cbn [for_each flat_map]. rewrite (@synthesize_candidates st self d Hd).
  cbn [bind]. rewrite (IH _ Hds). now rewrite fold_left_app.
Qed.

Lemma detect_recorded (tokens : list Token) (file_vector : list nat)
    (st : detection) :
  detect forwards_predict backwards_predict tokens file_vector = Ok st ->
  predictions_recorded st.
Proof.
  unfold detect. intros H.
  eapply detect_loop_recorded; [exact H | apply repeat_length |].
  constructor.
Qed.

(** [rank_and_fix] once the detection loop has returned: the ranking is
    the sorted list of agreements, the fix the first candidate of the
    first three disagreements that validates. *)
Lemma rank_and_fix_first_validated (tokens : list Token) (st : detection) :
  detect forwards_predict backwards_predict tokens
         (vectorize_tokens to_index tokens) = Ok st ->
  let ranked := list_sort Agreement_ltb (least_agreements st) in
  rank_and_fix forwards_predict backwards_predict check_syntax to_index
               id_to_token tokens
  = Ok (ranked,
        find (validates check_syntax tokens 1)
             (flat_map (candidates id_to_token st) (firstn 3 ranked))).
Proof.
  intros Hd ranked. unfold rank_and_fix. rewrite Hd. cbn [bind].
  fold ranked.
  rewrite synthesis_loop.
  - cbn [bind].
    pose proof (fold_try_fix_first
                  (flat_map (candidates id_to_token st) (firstn 3 ranked))
                  (new_Fixes tokens 1)) as Hfirst.
    unfold new_Fixes in Hfirst.
    cbn [Detect.fixes Detect.tokens Detect.offset] in Hfirst.
    rewrite <- Hfirst. unfold new_Fixes.
    now destruct (Detect.fixes _).
  - apply detect_recorded in Hd. unfold predictions_recorded in Hd.
    apply (list_sort_Forall Agreement_ltb) in Hd. fold ranked in Hd.
    rewrite Forall_forall in Hd |- *. intros d Hin.
    apply Hd. rewrite <- (firstn_skipn 3 ranked).
    apply in_or_app. now left.
Qed.
End FixFacts.

(** C4: the fix synthesizer looks at the first three positions of the ranked
    list only, generates for each of them remove, insert-forward-prediction
    and insert-backward-prediction in this order, and the fix it exposes is
    the first candidate in this order that validates, or none. *)
Theorem fix_is_first_validated_candidate :
  forall (forwards_predict backwards_predict : list nat -> Np.ndarray)
         (check_syntax : list Corpus.Token -> bool)
         (to_index : string -> nat) (id_to_token : nat -> Corpus.Token)
         (tokens : list Corpus.Token) (st : Evaluate.detection),
    Evaluate.detect forwards_predict backwards_predict tokens
      (VectorizeTokens.vectorize_tokens to_index tokens) = Py.Ok st ->
    let ranked :=
      Py.list_sort Detect.Agreement_ltb (Evaluate.least_agreements st) in
    Evaluate.rank_and_fix forwards_predict backwards_predict check_syntax
      to_index id_to_token tokens
    = Py.Ok (ranked,
             find (Detect.validates check_syntax tokens 1)
                  (flat_map (Props.candidates id_to_token st)
                            (firstn 3 ranked))).
Proof.
  intros. now apply rank_and_fix_first_validated.
Qed.

Lemma fix_is_first_validated_candidate_witness :
  exists st,
    Evaluate.detect Sample.forwards_predict Sample.backwards_predict
      Sample.tokens
      (VectorizeTokens.vectorize_tokens Sample.to_index Sample.tokens)
    = Py.Ok st
    /\ Evaluate.rank_and_fix Sample.forwards_predict Sample.backwards_predict
         Sample.accepts_one_more Sample.to_index Sample.id_to_token
         Sample.tokens
       = Py.Ok (Py.list_sort Detect.Agreement_ltb (Evaluate.least_agreements st),
                find (Detect.validates Sample.accepts_one_more Sample.tokens 1)
                     (flat_map (Props.candidates Sample.id_to_token st)
                        (firstn 3 (Py.list_sort Detect.Agreement_ltb
                                     (Evaluate.least_agreements st))))).
Proof.
  eexists. split.
  - vm_compute. reflexivity.
  - apply (fix_is_first_validated_candidate
             Sample.forwards_predict Sample.backwards_predict
             Sample.accepts_one_more Sample.to_index Sample.id_to_token
             Sample.tokens).
    vm_compute. reflexivity.
Defined.

(** C1: for vectors of equal length the agreement score is the negated sum
    of the squared element-wise differences; with forward [1,0,0] and
    backward [0,1,0] at position p, and [0.5,0.5,0] twice at position q, the
    score of p is strictly lower than the score of q and p comes before q in
    the sorted agreement list of the file. *)
Theorem agreement_is_negated_squared_error :
  forall (forwards_predict backwards_predict : list nat -> Np.ndarray)
         (check_syntax : list Corpus.Token -> bool)
         (to_index : string -> nat) (id_to_token : nat -> Corpus.Token)
         (fwd bwd : Np.ndarray) (tokens : list Corpus.Token)
         (ranked : list Detect.Agreement) (fix_ : option Detect.Fix)
         (p q : nat),
    length fwd = length bwd ->
    Evaluate.rank_and_fix forwards_predict backwards_predict check_syntax
      to_index id_to_token tokens = Py.Ok (ranked, fix_) ->
    Props.predicted_at forwards_predict backwards_predict
      (VectorizeTokens.vectorize_tokens to_index tokens) p
      [1%Q; 0%Q; 0%Q] [0%Q; 1%Q; 0%Q] ->
    Props.predicted_at forwards_predict backwards_predict
      (VectorizeTokens.vectorize_tokens to_index tokens) q
      [(1 # 2)%Q; (1 # 2)%Q; 0%Q] [(1 # 2)%Q; (1 # 2)%Q; 0%Q] ->
    (exists s,
        Evaluate.squared_error_agreement fwd bwd = Py.Ok s
        /\ (s == - Props.sum_squared_differences fwd bwd)%Q)
    /\ (exists sp sq,
           Evaluate.squared_error_agreement [1%Q; 0%Q; 0%Q] [0%Q; 1%Q; 0%Q]
           = Py.Ok sp
           /\ Evaluate.squared_error_agreement
                [(1 # 2)%Q; (1 # 2)%Q; 0%Q] [(1 # 2)%Q; (1 # 2)%Q; 0%Q]
              = Py.Ok sq
           /\ (sp < sq)%Q
           /\ Props.precedes (Detect.mkAgreement sp p)
                             (Detect.mkAgreement sq q) ranked).
Proof.
  intros fp bp check to_index id_to_token fwd bwd tokens ranked fix_ p q
         Hlen Hrf Hp Hq.
  split; [now apply squared_error_agreement_value |].
  assert (Hd : exists st,
             Evaluate.detect fp bp tokens
               (VectorizeTokens.vectorize_tokens to_index tokens) = Py.Ok st).
  { unfold Evaluate.rank_and_fix in Hrf.
    destruct (Evaluate.detect _ _ _ _) as [st | e]; [eauto | discriminate]. }
  destruct Hd as [st Hd].
  rewrite (rank_and_fix_first_validated fp bp check to_index id_to_token
             tokens Hd) in Hrf.
  injection Hrf as <- _.
  destruct (detect_loop_scores fp bp tokens _ _ _ Hd) as [_ Hscores].
  destruct Hp as (prefix_p & tp & suffix_p & tp' & Hinp & Efp & Ebp).
  destruct Hq as (prefix_q & tq & suffix_q & tq' & Hinq & Efq & Ebq).
  destruct (Hscores _ _ _ _ _ Hinp) as (sp & Hsp & Inp).
  destruct (Hscores _ _ _ _ _ Hinq) as (sq & Hsq & Inq).
  rewrite Efp, Ebp in Hsp. rewrite Efq, Ebq in Hsq.
  exists sp, sq. split; [exact Hsp |]. split; [exact Hsq |].
  vm_compute in Hsp. vm_compute in Hsq.
  injection Hsp as <-. injection Hsq as <-.
  split; [reflexivity |].
  eapply sorted_precedes.
  - exact Agreement_ltb_asym.
  - apply agreements_sorted.
  - now apply list_sort_In.
  - now apply list_sort_In.
  - reflexivity.
Qed.

Lemma agreement_is_negated_squared_error_witness :
  exists ranked fix_,
    length [1%Q; 0%Q; 0%Q] = length [0%Q; 1%Q; 0%Q]
    /\ Evaluate.rank_and_fix Sample.forwards_predict Sample.backwards_predict
         Sample.accepts_nothing Sample.to_index Sample.id_to_token
         Sample.tokens = Py.Ok (ranked, fix_)
    /\ Props.predicted_at Sample.forwards_predict Sample.backwards_predict
         (VectorizeTokens.vectorize_tokens Sample.to_index Sample.tokens) 20
         [1%Q; 0%Q; 0%Q] [0%Q; 1%Q; 0%Q]
    /\ Props.predicted_at Sample.forwards_predict Sample.backwards_predict
         (VectorizeTokens.vectorize_tokens Sample.to_index Sample.tokens) 42
         [(1 # 2)%Q; (1 # 2)%Q; 0%Q] [(1 # 2)%Q; (1 # 2)%Q; 0%Q]
    /\ (exists s,
           Evaluate.squared_error_agreement [1%Q; 0%Q; 0%Q] [0%Q; 1%Q; 0%Q]
           = Py.Ok s
           /\ (s == - Props.sum_squared_differences
                       [1%Q; 0%Q; 0%Q] [0%Q; 1%Q; 0%Q])%Q)
    /\ (exists sp sq,
           Evaluate.squared_error_agreement [1%Q; 0%Q; 0%Q] [0%Q; 1%Q; 0%Q]
           = Py.Ok sp
           /\ Evaluate.squared_error_agreement
                [(1 # 2)%Q; (1 # 2)%Q; 0%Q] [(1 # 2)%Q; (1 # 2)%Q; 0%Q]
              = Py.Ok sq
           /\ (sp < sq)%Q
           /\ Props.precedes (Detect.mkAgreement sp 20)
                             (Detect.mkAgreement sq 42) ranked).
Proof.
  assert (Hrf : exists ranked fix_,
             Evaluate.rank_and_fix Sample.forwards_predict
               Sample.backwards_predict Sample.accepts_nothing
               Sample.to_index Sample.id_to_token Sample.tokens
             = Py.Ok (ranked, fix_)).
  { eexists. eexists. vm_compute. reflexivity. }
  destruct Hrf as (ranked & fix_ & Hrf).
  assert (Hp : Props.predicted_at Sample.forwards_predict
                 Sample.backwards_predict
                 (VectorizeTokens.vectorize_tokens Sample.to_index
                    Sample.tokens) 20
                 [1%Q; 0%Q; 0%Q] [0%Q; 1%Q; 0%Q]).
  { eexists. eexists. eexists. eexists. split.
    - vm_compute. left. reflexivity.
    - split; reflexivity. }
  assert (Hq : Props.predicted_at Sample.forwards_predict
                 Sample.backwards_predict
                 (VectorizeTokens.vectorize_tokens Sample.to_index
                    Sample.tokens) 42
                 [(1 # 2)%Q; (1 # 2)%Q; 0%Q] [(1 # 2)%Q; (1 # 2)%Q; 0%Q]).
  { eexists. eexists. eexists. eexists. split.
    - vm_compute. do 22 right. left. reflexivity.
    - split; reflexivity. }
  exists ranked, fix_.
  split; [reflexivity |]. split; [exact Hrf |].
  split; [exact Hp |]. split; [exact Hq |].
  exact (@agreement_is_negated_squared_error
           Sample.forwards_predict Sample.backwards_predict
           Sample.accepts_nothing Sample.to_index Sample.id_to_token
           [1%Q; 0%Q; 0%Q] [0%Q; 1%Q; 0%Q] Sample.tokens ranked fix_ 20 42
           eq_refl Hrf Hp Hq).
Defined.

(** ** The context windows *)

Section ContextFacts.
Import Py TrainingUtils Detect Evaluate Props.

Lemma combine_map_same {A B C : Type} (f : A -> B) (g : A -> C)
    (l : list A) :
  combine (map f l) (map g l) = map (fun x => (f x, g x)) l.
Proof. induction l as [|x l IH]; simpl; [reflexivity | now rewrite IH]. Qed.

Lemma scored_positions_windows (file_vector : list nat) :
  scored_positions file_vector
  = map (fun k => (k, (forward_sentence file_vector sentence_length k,
                       backward_sentence file_vector sentence_length k)))
        (seq sentence_length
             (length file_vector - 1 - sentence_length)).
Proof.
  unfold scored_positions, contexts, Sentences, chop_prefix, zip.
  rewrite skipn_map, skipn_seq. cbn [Nat.add].
  rewrite combine_map_same.
  apply (enumerate_map
           (fun k => (forward_sentence file_vector sentence_length k,
                      backward_sentence file_vector sentence_length k))).
Qed.
End ContextFacts.

Section TargetFacts.
Import Py Np Corpus TrainingUtils Detect Evaluate.
Variable forwards_predict : list nat -> ndarray.
Variable backwards_predict : list nat -> ndarray.
Variable tokens : list Token.
Variable file_vector : list nat.

Abbreviation turn :=
  (score_position forwards_predict backwards_predict tokens file_vector).


End TargetFacts.

(** [Evaluate.detect] is the loop over the pairs [Evaluate.contexts]
    yields. *)
Lemma detect_is_detect_over
    (forwards_predict backwards_predict : list nat -> Np.ndarray)
    (tokens : list Corpus.Token) (file_vector : list nat) :
  Evaluate.detect forwards_predict backwards_predict tokens file_vector
  = Loop.detect_over forwards_predict backwards_predict tokens file_vector
      (Evaluate.contexts file_vector).
Proof. reflexivity. Qed.




(** ** [fix_zeros] and the harmonic mean *)

Section FixZerosFacts.
Import Py Np Detect Evaluate Props.
Local Open Scope Q_scope.

Lemma isclose_zero_iff (x : Q) :
  isclose x 0 default_rel_tol default_abs_tol = true <-> x == 0.
Proof.
  unfold isclose, default_rel_tol, default_abs_tol.
  rewrite Qle_bool_iff.
  assert (H0 : Qabs 0 == 0) by reflexivity.
  pose proof (Q.max_spec (Qabs x) (Qabs 0)) as M1.
  pose proof (Q.max_spec ((1 # 1000000000) * Qmax (Qabs x) (Qabs 0)) 0)
    as M2.
  destruct (Qlt_le_dec x 0) as [Hx | Hx].
  - assert (A1 : Qabs x == - x) by (apply Qabs_neg; lra).
    assert (A2 : Qabs (x - 0) == - (x - 0)) by (apply Qabs_neg; lra).
    split; intros H; lra.
  - assert (A1 : Qabs x == x) by (apply Qabs_pos; lra).
    assert (A2 : Qabs (x - 0) == x - 0) by (apply Qabs_pos; lra).
    split; intros H; lra.
Qed.

Lemma isclose_zero (x : Q) :
  isclose x 0 default_rel_tol default_abs_tol = Qeq_bool x 0.
Proof.
  destruct (Qeq_bool x 0) eqn:E.
  - apply isclose_zero_iff. now apply Qeq_bool_iff.
  - apply not_true_iff_false. intros H.
    apply isclose_zero_iff, Qeq_bool_iff in H. congruence.
Qed.

Lemma setitem_app (done rest : ndarray) (x v : Q) :
  setitem (done ++ x :: rest) (length done) v = done ++ v :: rest.
Proof.
  unfold setitem. induction done as [|d done IH]; simpl.
  - reflexivity.
  - f_equal. exact IH.
Qed.

Lemma fix_zeros_step_next (epsilon : Q) (done rest : ndarray) (x : Q) :
  fix_zeros_step epsilon (done ++ x :: rest) (length done)
  = done ++ zero_to_epsilon epsilon x :: rest.
Proof.
  unfold fix_zeros_step, zero_to_epsilon.
  rewrite nth_error_app2, Nat.sub_diag by lia. simpl.
  rewrite isclose_zero. destruct (Qeq_bool x 0); [| reflexivity].
  apply setitem_app.
Qed.

Lemma fix_zeros_loop (epsilon : Q) (rest : ndarray) :
  forall done : ndarray,
    fold_left (fix_zeros_step epsilon)
              (seq (length done) (length rest)) (done ++ rest)
    = done ++ map (zero_to_epsilon epsilon) rest.
Proof.
  induction rest as [|x rest IH]; intros done; simpl.
  - reflexivity.
  - rewrite fix_zeros_step_next.
    replace (done ++ zero_to_epsilon epsilon x :: rest)
      with ((done ++ [zero_to_epsilon epsilon x]) ++ rest)
      by (now rewrite <- app_assoc).
    replace (S (length done))
      with (length (done ++ [zero_to_epsilon epsilon x]))
      by (rewrite length_app; simpl; lia).
    rewrite IH. now rewrite <- app_assoc.
Qed.

(** The array after [fix_zeros]: epsilon where it held zero, the old
    entry elsewhere. *)
Lemma fix_zeros_map (epsilon : Q) (preds : ndarray) :
  fix_zeros epsilon preds = map (zero_to_epsilon epsilon) preds.
Proof. exact (fix_zeros_loop epsilon preds []). Qed.

(** A second pass of [fix_zeros] changes nothing. *)
Lemma fix_zeros_idempotent (epsilon : Q) (preds : ndarray) :
  ~ epsilon == 0 ->
  fix_zeros epsilon (fix_zeros epsilon preds) = fix_zeros epsilon preds.
Proof.
  intros He. rewrite !fix_zeros_map, map_map. apply map_ext. intros x.
  unfold zero_to_epsilon. apply Qeq_bool_false in He.
  destruct (Qeq_bool x 0) eqn:E; [now rewrite He | now rewrite E].
Qed.

Lemma zero_to_epsilon_nonzero (epsilon x : Q) :
  ~ x == 0 -> zero_to_epsilon epsilon x = x.
Proof.
  intros H. unfold zero_to_epsilon.
  apply Qeq_bool_false in H. now rewrite H.
Qed.

Lemma zero_to_epsilon_positive (epsilon x : Q) :
  0 < epsilon -> 0 <= x -> 0 < zero_to_epsilon epsilon x.
Proof.
  intros He Hx. unfold zero_to_epsilon.
  destruct (Qeq_bool x 0) eqn:E; [exact He |].
  apply Qeq_bool_false in E.
  destruct (Qlt_le_dec 0 x) as [H | H]; [exact H |].
  exfalso. apply E. lra.
Qed.

Lemma map_unchanged (f : Q -> Q) (l : ndarray) :
  Forall (fun x => f x = x) l -> map f l = l.
Proof. induction 1; simpl; congruence. Qed.

Lemma harmonic_mean_at_positive (a b : Q) :
  0 < a -> 0 < b -> exists m, harmonic_mean_at a b = Finite m.
Proof.
  intros Ha Hb. unfold harmonic_mean_at, divide.
  assert (Ea : Qeq_bool a 0 = false) by (apply Qeq_bool_false; lra).
  assert (Eb : Qeq_bool b 0 = false) by (apply Qeq_bool_false; lra).
  rewrite Ea, Eb.
  pose proof (Qinv_lt_0_compat a Ha) as Ia.
  pose proof (Qinv_lt_0_compat b Hb) as Ib.
  assert (Es : Qeq_bool (1 / a + 1 / b) 0 = false).
  { apply Qeq_bool_false. unfold Qdiv. lra. }
  rewrite Es. eauto.
Qed.

Lemma harmonic_mean_positive (p : ndarray) :
  forall q : ndarray,
    length p = length q ->
    Forall (fun x => 0 < x) p -> Forall (fun x => 0 < x) q ->
    exists mean,
      harmonic_mean p q = Ok (map Finite mean) /\ length mean = length p.
Proof.
  unfold harmonic_mean, elementwise.
  induction p as [|x p IH]; intros [|y q] Hlen Hp Hq; try discriminate.
  - exists []. split; reflexivity.
  - injection Hlen as Hlen.
    inversion Hp as [|? ? Hx Hp']; inversion Hq as [|? ? Hy Hq']; subst.
    destruct (IH q Hlen Hp' Hq') as (mean & Hm & Hl).
    rewrite Hlen, Nat.eqb_refl in Hm. injection Hm as Hm.
    destruct (harmonic_mean_at_positive Hx Hy) as (m & Em).
    exists (m :: mean). split; [| simpl; now rewrite Hl].
    simpl. now rewrite Hlen, Nat.eqb_refl, Em, Hm.
Qed.

Lemma all_finite_map (mean : ndarray) : all_finite (map Finite mean) = Some mean.
Proof.
  induction mean as [|m mean IH]; simpl; [reflexivity | now rewrite IH].
Qed.

Lemma rank_head_In (mean : ndarray) (i : nat) (v : Q) (rest : list (nat * Q)) :
  rank mean = (i, v) :: rest -> In v mean.
Proof.
  intros H.
  assert (Hin : In (i, v) (enumerate 0 mean)).
  { apply (Permutation_in _ (rank_Permutation mean)). rewrite H. now left. }
  unfold enumerate in Hin. now apply in_combine_r in Hin.
Qed.

(** The entry [rank] puts first is the largest. *)
Lemma rank_head_max (mean : ndarray) (i : nat) (v : Q) (rest : list (nat * Q)) :
  rank mean = (i, v) :: rest -> Forall (fun x => x <= v) mean.
Proof.
  intros H. pose proof (rank_sorted mean) as Hs.
  rewrite H in Hs. inversion Hs as [|? ? _ Hall]; subst.
  rewrite Forall_forall in Hall |- *. intros x Hx.
  destruct (In_nth_error _ _ Hx) as [n Hn].
  assert (Hin : In (n, x) (rank mean)).
  { apply (Permutation_in _ (Permutation_sym (rank_Permutation mean))).
    exact (enumerate_nth_In mean 0 n Hn). }
  rewrite H in Hin. destruct Hin as [E | Hin].
  - injection E as _ <-. lra.
  - destruct (Hall _ Hin) as [Hlt | [Heq _]]; simpl in *; lra.
Qed.
End FixZerosFacts.

Lemma float_info_epsilon_positive : (0 < Py.float_info_epsilon)%Q.
Proof. reflexivity. Qed.

(** The value of the diagnostic, when it is finite, is an entry of the
    harmonic-mean vector that no other entry exceeds. *)
Lemma harmonic_mean_agreement_largest (p q : Np.ndarray) (v : Q) :
  snd (Evaluate.harmonic_mean_agreement p q) = Py.Ok (Np.Finite v) ->
  exists mean,
    Detect.harmonic_mean (Evaluate.fix_zeros Py.float_info_epsilon p)
                         (Evaluate.fix_zeros Py.float_info_epsilon q)
    = Py.Ok (map Np.Finite mean)
    /\ In v mean
    /\ Forall (fun x => (x <= v)%Q) mean.
Proof.
  unfold Evaluate.harmonic_mean_agreement. cbn [snd]. intros H.
  bind_inv H as mean0 Ha.
  destruct (Np.all_finite mean0) as [mean |] eqn:Ef; [| discriminate].
  destruct (Detect.rank mean) as [| [i m] rest] eqn:Er; [discriminate |].
  injection H as ->.
  exists mean. split; [| split].
  - rewrite Ha. f_equal. clear - Ef. revert mean Ef.
    induction mean0 as [| [x |] mean0 IH]; simpl; intros mean Ef.
    + now injection Ef as <-.
    + destruct (Np.all_finite mean0) as [m' |]; [| discriminate].
      injection Ef as <-. simpl. f_equal. now apply IH.
    + discriminate.
  - exact (rank_head_In _ Er).
  - exact (rank_head_max _ Er).
Qed.

(** C2, at the vectors [0.1, 0.5, 0.4] twice: the harmonic-mean vector is
    [0.1, 0.5, 0.4]; [rank] sorts it from top to lowest, the entry of
    minimum probability is its last, 0.1, and the value returned is its
    first, 0.5. *)
Theorem harmonic_mean_agreement_returns_top_entry :
  exists mean v lowest,
    Detect.harmonic_mean [(1 # 10)%Q; (5 # 10)%Q; (4 # 10)%Q]
                         [(1 # 10)%Q; (5 # 10)%Q; (4 # 10)%Q]
    = Py.Ok (map Np.Finite mean)
    /\ map fst (Detect.rank mean) = [1; 2; 0]
    /\ last (map snd (Detect.rank mean)) 0%Q = lowest
    /\ (lowest == 1 # 10)%Q
    /\ snd (Evaluate.harmonic_mean_agreement
              [(1 # 10)%Q; (5 # 10)%Q; (4 # 10)%Q]
              [(1 # 10)%Q; (5 # 10)%Q; (4 # 10)%Q]) = Py.Ok (Np.Finite v)
    /\ (v == 5 # 10)%Q
    /\ ~ (v == lowest)%Q.
Proof.
  exists [(2 # 20)%Q; (50 # 100)%Q; (32 # 80)%Q], (50 # 100)%Q, (2 # 20)%Q.
  repeat (split; [vm_compute; reflexivity |]).
  intros H. vm_compute in H. discriminate.
Qed.

(** C8: on prediction vectors, the harmonic-mean diagnostic first stores
    epsilon, which is positive, in place of every entry that is exactly
    zero, computes the harmonic mean from the arrays so changed, and
    returns a finite number. *)
Theorem harmonic_mean_agreement_is_finite :
  forall p q : Np.ndarray,
    length p = length q ->
    p <> [] ->
    Forall (fun x => (0 <= x)%Q) p ->
    Forall (fun x => (0 <= x)%Q) q ->
    let p' := map (Props.zero_to_epsilon Py.float_info_epsilon) p in
    let q' := map (Props.zero_to_epsilon Py.float_info_epsilon) q in
    (0 < Py.float_info_epsilon)%Q
    /\ Forall (fun x => (0 < x)%Q) p'
    /\ Forall (fun x => (0 < x)%Q) q'
    /\ exists mean v,
         Detect.harmonic_mean p' q' = Py.Ok (map Np.Finite mean)
         /\ In v mean
         /\ Evaluate.harmonic_mean_agreement p q
            = (p', q', Py.Ok (Np.Finite v)).
Proof.
  intros p q Hlen Hne Hp Hq p' q'.
  assert (Hp' : Forall (fun x => (0 < x)%Q) p').
  { unfold p'. rewrite Forall_map. eapply Forall_impl; [| exact Hp].
    intros x. apply zero_to_epsilon_positive, float_info_epsilon_positive. }
  assert (Hq' : Forall (fun x => (0 < x)%Q) q').
  { unfold q'. rewrite Forall_map. eapply Forall_impl; [| exact Hq].
    intros x. apply zero_to_epsilon_positive, float_info_epsilon_positive. }
  split; [apply float_info_epsilon_positive |].
  split; [exact Hp' |]. split; [exact Hq' |].
  assert (Hlen' : length p' = length q')
    by (unfold p', q'; now rewrite !length_map).
  destruct (harmonic_mean_positive Hlen' Hp' Hq') as (mean & Hm & Hl).
  destruct (Detect.rank mean) as [| [i v] rest] eqn:Er.
  - exfalso. apply (f_equal (@length _)) in Er.
    rewrite rank_length, Hl in Er. unfold p' in Er.
    rewrite length_map in Er. destruct p; [congruence | discriminate].
  - exists mean, v. split; [exact Hm |].
    split; [exact (rank_head_In _ Er) |].
    unfold Evaluate.harmonic_mean_agreement.
    rewrite !fix_zeros_map. fold p' q'. rewrite Hm. cbn [Py.bind].
    now rewrite all_finite_map, Er.
Qed.

Lemma harmonic_mean_agreement_is_finite_witness :
  length [1%Q; 0%Q; 0%Q] = length [0%Q; 1%Q; 0%Q]
  /\ [1%Q; 0%Q; 0%Q] <> []
  /\ Forall (fun x => (0 <= x)%Q) [1%Q; 0%Q; 0%Q]
  /\ Forall (fun x => (0 <= x)%Q) [0%Q; 1%Q; 0%Q]
  /\ (0 < Py.float_info_epsilon)%Q
  /\ Forall (fun x => (0 < x)%Q)
            (map (Props.zero_to_epsilon Py.float_info_epsilon)
                 [1%Q; 0%Q; 0%Q])
  /\ Forall (fun x => (0 < x)%Q)
            (map (Props.zero_to_epsilon Py.float_info_epsilon)
                 [0%Q; 1%Q; 0%Q])
  /\ exists mean v,
       Detect.harmonic_mean
         (map (Props.zero_to_epsilon Py.float_info_epsilon) [1%Q; 0%Q; 0%Q])
         (map (Props.zero_to_epsilon Py.float_info_epsilon) [0%Q; 1%Q; 0%Q])
       = Py.Ok (map Np.Finite mean)
       /\ In v mean
       /\ Evaluate.harmonic_mean_agreement [1%Q; 0%Q; 0%Q] [0%Q; 1%Q; 0%Q]
          = (map (Props.zero_to_epsilon Py.float_info_epsilon)
                 [1%Q; 0%Q; 0%Q],
             map (Props.zero_to_epsilon Py.float_info_epsilon)
                 [0%Q; 1%Q; 0%Q],
             Py.Ok (Np.Finite v)).
Proof.
  assert (H1 : [1%Q; 0%Q; 0%Q] <> []) by discriminate.
  assert (H2 : Forall (fun x => (0 <= x)%Q) [1%Q; 0%Q; 0%Q])
    by (repeat constructor; discriminate).
  assert (H3 : Forall (fun x => (0 <= x)%Q) [0%Q; 1%Q; 0%Q])
    by (repeat constructor; discriminate).
  split; [reflexivity |]. split; [exact H1 |].
  split; [exact H2 |]. split; [exact H3 |].
  exact (@harmonic_mean_agreement_is_finite
           [1%Q; 0%Q; 0%Q] [0%Q; 1%Q; 0%Q] eq_refl H1 H2 H3).
Defined.

(** C7, as stated, fails: after the diagnostic has run on the forward
    prediction [1, 0, 0], the array holds epsilon where it held zero. *)
Lemma harmonic_mean_agreement_overwrites_prediction :
  fst (fst (Evaluate.harmonic_mean_agreement
              [1%Q; 0%Q; 0%Q] [0%Q; 1%Q; 0%Q]))
  = [1%Q; Py.float_info_epsilon; Py.float_info_epsilon]
  /\ ~ Forall2 Qeq
         (fst (fst (Evaluate.harmonic_mean_agreement
                      [1%Q; 0%Q; 0%Q] [0%Q; 1%Q; 0%Q])))
         [1%Q; 0%Q; 0%Q].
Proof.
  split; [vm_compute; reflexivity |].
  intros H. vm_compute in H.
  inversion H as [| ? ? ? ? _ H1]; subst.
  inversion H1 as [| ? ? ? ? E _]; subst.
  vm_compute in E. discriminate.
Qed.

(** C7, amended: the harmonic-mean diagnostic stores epsilon in place of
    every entry of its two arguments that is exactly zero and leaves every
    other entry as it was; a prediction without a zero entry is the same
    after the call as before it.  Agreement scoring and the extraction of
    the top prediction only read their arguments. *)
Theorem harmonic_mean_agreement_overwrites_only_zeros :
  forall p q : Np.ndarray,
    let after := fst (Evaluate.harmonic_mean_agreement p q) in
    Forall2 (fun x x' => ((x == 0)%Q -> x' = Py.float_info_epsilon)
                         /\ (~ (x == 0)%Q -> x' = x)) p (fst after)
    /\ Forall2 (fun x x' => ((x == 0)%Q -> x' = Py.float_info_epsilon)
                            /\ (~ (x == 0)%Q -> x' = x)) q (snd after)
    /\ (Forall (fun x => ~ (x == 0)%Q) p -> fst after = p)
    /\ (Forall (fun x => ~ (x == 0)%Q) q -> snd after = q).
Proof.
  intros p q after. unfold after, Evaluate.harmonic_mean_agreement.
  cbn [fst snd]. rewrite !fix_zeros_map.
  assert (Hpoint : forall l : Np.ndarray,
             Forall2 (fun x x' => ((x == 0)%Q -> x' = Py.float_info_epsilon)
                                  /\ (~ (x == 0)%Q -> x' = x))
                     l (map (Props.zero_to_epsilon Py.float_info_epsilon) l)).
  { induction l as [| x l IH]; simpl; constructor; [| exact IH].
    unfold Props.zero_to_epsilon. split; intros H.
    - apply Qeq_bool_iff in H. now rewrite H.
    - apply Qeq_bool_false in H. now rewrite H. }
  assert (Hsame : forall l : Np.ndarray,
             Forall (fun x => ~ (x == 0)%Q) l ->
             map (Props.zero_to_epsilon Py.float_info_epsilon) l = l).
  { intros l H. apply map_unchanged. eapply Forall_impl; [| exact H].
    intros x. apply zero_to_epsilon_nonzero. }
  repeat split; auto.
Qed.

(** ** The main loop *)

Section HarnessFacts.
Import Py Corpus Detect Evaluate.

(** LOAD succeeds exactly on the vectors that begin with 0 and end with
    99, whatever the number of tokens. *)
Lemma load_Ok_iff (vector : list nat) (tokens : list Token)
    (entries : list entry) :
  load vector tokens = Ok entries
  <-> nth_error vector 0 = Some 0
      /\ getlast vector = Ok 99
      /\ entries = Sentinel "start" :: map Tok tokens ++ [Sentinel "end"].
Proof.
  unfold load. split.
  - intros H. bind_inv H as first Hfirst. apply getitem_Ok in Hfirst.
    bind_inv H as u1 Hstart. apply assert_Ok, Nat.eqb_eq in Hstart.
    subst first.
    bind_inv H as final Hfinal.
    bind_inv H as u2 Hend. apply assert_Ok, Nat.eqb_eq in Hend.
    subst final.
    bind_inv H as u3 Hlen. injection H as <-. auto.
  - intros (H0 & Hl & ->).
    apply getitem_Ok in H0. rewrite H0, Hl. cbn [bind Nat.eqb assert].
    now rewrite Nat.eqb_refl.
Qed.

(** A vector that does not begin with 0 or does not end with 99 fails an
    assertion of LOAD. *)
Lemma load_rejects_missing_sentinel (vector : list nat) (tokens : list Token) :
  vector <> [] ->
  nth_error vector 0 <> Some 0 \/ getlast vector <> Ok 99 ->
  load vector tokens = Raise AssertionError.
Proof.
  intros Hne H. destruct vector as [| x vector]; [congruence |].
  unfold load. cbn [getitem nth_error bind].
  destruct (x =? 0) eqn:Ex; [| reflexivity].
  apply Nat.eqb_eq in Ex. subst x. cbn [assert bind getlast].
  destruct (last vector 0 =? 99) eqn:El; [| reflexivity].
  apply Nat.eqb_eq in El. exfalso.
  destruct H as [H | H]; apply H; simpl; congruence.
Qed.

Lemma find_none_Forall {A : Type} (f : A -> bool) (l : list A) :
  Forall (fun x => f x = false) l -> find f l = None.
Proof.
  induction 1 as [| x l Hx _ IH]; simpl; [reflexivity | now rewrite Hx].
Qed.
End HarnessFacts.

(** C5: the vector of a token sequence has two entries more than the
    sequence, begins with the start id 0 and ends with the end id 99, and
    LOAD accepts it with a padded tuple of its length; LOAD returns only on
    a vector that begins with 0 and ends with 99: on any other vector it
    fails, with an [AssertionError], or an [IndexError] when the vector is
    empty. *)
Theorem load_asserts_sentinels :
  (forall (to_index : string -> nat) (tokens : list Corpus.Token),
      let vector := VectorizeTokens.vectorize_tokens to_index tokens in
      length vector = length tokens + 2
      /\ nth_error vector 0 = Some Vocabulary.start_token_index
      /\ Py.getlast vector = Py.Ok Vocabulary.end_token_index
      /\ exists entries,
           Evaluate.load vector tokens = Py.Ok entries
           /\ length entries = length vector)
  /\ (forall (vector : list nat) (tokens : list Corpus.Token)
             (entries : list Evaluate.entry),
         Evaluate.load vector tokens = Py.Ok entries ->
         nth_error vector 0 = Some Vocabulary.start_token_index
         /\ Py.getlast vector = Py.Ok Vocabulary.end_token_index)
  /\ (forall (vector : list nat) (tokens : list Corpus.Token),
         vector <> [] ->
         nth_error vector 0 <> Some Vocabulary.start_token_index
         \/ Py.getlast vector <> Py.Ok Vocabulary.end_token_index ->
         Evaluate.load vector tokens = Py.Raise Py.AssertionError)
  /\ (forall tokens : list Corpus.Token,
         Evaluate.load [] tokens = Py.Raise Py.IndexError).
Proof.
  split; [| split; [| split]].
  - intros to_index tokens vector.
    assert (Hlen : length vector = length tokens + 2).
    { unfold vector, VectorizeTokens.vectorize_tokens. cbn [length].
      rewrite length_app, length_map. cbn [length]. lia. }
    assert (Hlast : Py.getlast vector = Py.Ok Vocabulary.end_token_index).
    { unfold vector, VectorizeTokens.vectorize_tokens, Py.getlast.
      rewrite last_last. reflexivity. }
    split; [exact Hlen |]. split; [reflexivity |]. split; [exact Hlast |].
    eexists. split.
    + apply load_Ok_iff. split; [reflexivity |]. split; [exact Hlast |].
      reflexivity.
    + rewrite Hlen. cbn [length]. rewrite length_app, length_map.
      cbn [length]. lia.
  - intros vector tokens entries H. apply load_Ok_iff in H. tauto.
  - exact load_rejects_missing_sentinel.
  - reflexivity.
Qed.

Lemma load_asserts_sentinels_witness :
  [7; 99] <> []
  /\ Evaluate.load [7; 99] [Corpus.mkToken "Punctuator" ";" 1]
     = Py.Raise Py.AssertionError.
Proof.
  assert (Hne : [7; 99] <> []) by discriminate.
  split; [exact Hne |].
  apply (proj1 (proj2 (proj2 load_asserts_sentinels))
           [7; 99] [Corpus.mkToken "Punctuator" ";" 1] Hne).
  left. discriminate.
Defined.

(** C9, as stated, fails: on a file too short for a context window the
    ranking is empty, no candidate is synthesized, [rank_and_fix] returns no
    fix, and the trial ends in the [IndexError] of [ranked_locations[0]]
    without writing a row. *)
Lemma no_fix_found_on_short_file_raises :
  Evaluate.rank_and_fix Sample.forwards_predict Sample.backwards_predict
    Sample.accepts_nothing Sample.to_index Sample.id_to_token
    Sample.short_mutated_tokens = Py.Ok ([], None)
  /\ Evaluate.trial Sample.forwards_predict Sample.backwards_predict
       Sample.accepts_nothing Sample.to_index Sample.id_to_token
       3 "0a1b2c"
       (VectorizeTokens.vectorize_tokens Sample.to_index Sample.short_tokens)
       Sample.short_tokens Sample.short_mutation Sample.short_mutated_tokens
     = Py.Raise Py.IndexError.
Proof.
  split; vm_compute; reflexivity.
Qed.

(** C9, amended: when none of the synthesized candidates validates and the
    look-ups of the trial that do not depend on the fix succeed, the trial
    writes its row, with [fixed] false and the kind, position and token of
    the fix empty. *)
Theorem no_fix_found_is_recorded :
  forall (forwards_predict backwards_predict : list nat -> Np.ndarray)
         (check_syntax : list Corpus.Token -> bool)
         (to_index : string -> nat) (id_to_token : nat -> Corpus.Token)
         (fold_no : nat) (file_hash : string) (vector : list nat)
         (tokens mutated_tokens : list Corpus.Token)
         (mutation : Mutate.Mutation)
         (entries : list Evaluate.entry) (st : Evaluate.detection)
         (correct_line top_line : nat) (rank_correct_line : option nat),
    Evaluate.load vector tokens = Py.Ok entries ->
    (e <- Py.getitem entries (Mutate.location mutation) ;;
     Evaluate.line_of e) = Py.Ok correct_line ->
    Evaluate.detect forwards_predict backwards_predict mutated_tokens
      (VectorizeTokens.vectorize_tokens to_index mutated_tokens) = Py.Ok st ->
    let ranked :=
      Py.list_sort Detect.Agreement_ltb (Evaluate.least_agreements st) in
    Forall (fun f => Detect.validates check_syntax mutated_tokens 1 f = false)
           (flat_map (Props.candidates id_to_token st) (firstn 3 ranked)) ->
    (top <- Py.getitem ranked 0 ;;
     e <- Py.getitem entries (Detect.index top) ;;
     Evaluate.line_of e) = Py.Ok top_line ->
    Evaluate.first_with_line_no ranked correct_line entries
    = Py.Ok rank_correct_line ->
    exists row,
      Evaluate.trial forwards_predict backwards_predict check_syntax
        to_index id_to_token fold_no file_hash vector tokens mutation
        mutated_tokens = Py.Ok row
      /\ Evaluate.fixed row = false
      /\ Evaluate.fkind row = None
      /\ Evaluate.fpos row = None
      /\ Evaluate.ftoken row = None
      /\ Evaluate.mkind row = Mutate.name mutation
      /\ Evaluate.mpos row = Mutate.location mutation
      /\ Evaluate.correct_line row = correct_line
      /\ Evaluate.line_of_top_rank row = top_line
      /\ Evaluate.rank_correct_line row = rank_correct_line.
Proof.
  intros fp bp check to_index id_to_token fold_no file_hash vector tokens
         mutated_tokens mutation entries st correct_line top_line
         rank_correct_line Hload Hline Hd ranked Hnone Htop Hrank.
  bind_inv Hline as e He.
  bind_inv Htop as top Htop0. bind_inv Htop as e' He'.
  eexists. split.
  - unfold Evaluate.trial. rewrite Hload. cbn [Py.bind].
    rewrite He. cbn [Py.bind]. rewrite Hline. cbn [Py.bind].
    rewrite (rank_and_fix_first_validated fp bp check to_index id_to_token
               mutated_tokens Hd).
    cbn [Py.bind]. fold ranked.
    rewrite (find_none_Forall _ Hnone).
    unfold Evaluate.record.
    rewrite Htop0. cbn [Py.bind]. rewrite He'. cbn [Py.bind].
    rewrite Htop. cbn [Py.bind]. rewrite Hrank. cbn [Py.bind].
    reflexivity.
  - repeat split; reflexivity.
Qed.

Lemma no_fix_found_is_recorded_witness :
  Evaluate.load
    (VectorizeTokens.vectorize_tokens Sample.to_index Sample.tokens)
    Sample.tokens = Py.Ok Sample.entries
  /\ (e <- Py.getitem Sample.entries (Mutate.location Sample.mutation) ;;
      Evaluate.line_of e) = Py.Ok 5
  /\ Evaluate.detect Sample.forwards_predict Sample.backwards_predict
       Sample.mutated_tokens
       (VectorizeTokens.vectorize_tokens Sample.to_index
          Sample.mutated_tokens) = Py.Ok Sample.detected
  /\ Forall (fun f => Detect.validates Sample.accepts_nothing
                        Sample.mutated_tokens 1 f = false)
            (flat_map (Props.candidates Sample.id_to_token Sample.detected)
               (firstn 3 (Py.list_sort Detect.Agreement_ltb
                            (Evaluate.least_agreements Sample.detected))))
  /\ (top <- Py.getitem
               (Py.list_sort Detect.Agreement_ltb
                  (Evaluate.least_agreements Sample.detected)) 0 ;;
      e <- Py.getitem Sample.entries (Detect.index top) ;;
      Evaluate.line_of e) = Py.Ok 20
  /\ Evaluate.first_with_line_no
       (Py.list_sort Detect.Agreement_ltb
          (Evaluate.least_agreements Sample.detected)) 5 Sample.entries
     = Py.Ok None
  /\ exists row,
       Evaluate.trial Sample.forwards_predict Sample.backwards_predict
         Sample.accepts_nothing Sample.to_index Sample.id_to_token
         3 "0a1b2c" (VectorizeTokens.vectorize_tokens Sample.to_index
                       Sample.tokens)
         Sample.tokens Sample.mutation Sample.mutated_tokens = Py.Ok row
       /\ Evaluate.fixed row = false
       /\ Evaluate.fkind row = None
       /\ Evaluate.fpos row = None
       /\ Evaluate.ftoken row = None
       /\ Evaluate.mkind row = Mutate.name Sample.mutation
       /\ Evaluate.mpos row = Mutate.location Sample.mutation
       /\ Evaluate.correct_line row = 5
       /\ Evaluate.line_of_top_rank row = 20
       /\ Evaluate.rank_correct_line row = None.
Proof.
  assert (Hload : Evaluate.load
            (VectorizeTokens.vectorize_tokens Sample.to_index Sample.tokens)
            Sample.tokens = Py.Ok Sample.entries)
    by (vm_compute; reflexivity).
  assert (Hline : (e <- Py.getitem Sample.entries
                          (Mutate.location Sample.mutation) ;;
                   Evaluate.line_of e) = Py.Ok 5)
    by (vm_compute; reflexivity).
  assert (Hd : Evaluate.detect Sample.forwards_predict
                 Sample.backwards_predict Sample.mutated_tokens
                 (VectorizeTokens.vectorize_tokens Sample.to_index
                    Sample.mutated_tokens) = Py.Ok Sample.detected)
    by (vm_compute; reflexivity).
  assert (Hnone : Forall (fun f => Detect.validates Sample.accepts_nothing
                                     Sample.mutated_tokens 1 f = false)
            (flat_map (Props.candidates Sample.id_to_token Sample.detected)
               (firstn 3 (Py.list_sort Detect.Agreement_ltb
                            (Evaluate.least_agreements Sample.detected)))))
    by (vm_compute; repeat constructor).
  assert (Htop : (top <- Py.getitem
                           (Py.list_sort Detect.Agreement_ltb
                              (Evaluate.least_agreements Sample.detected)) 0 ;;
                  e <- Py.getitem Sample.entries (Detect.index top) ;;
                  Evaluate.line_of e) = Py.Ok 20)
    by (vm_compute; reflexivity).
  assert (Hrank : Evaluate.first_with_line_no
                    (Py.list_sort Detect.Agreement_ltb
                       (Evaluate.least_agreements Sample.detected))
                    5 Sample.entries = Py.Ok None)
    by (vm_compute; reflexivity).
  split; [exact Hload |]. split; [exact Hline |]. split; [exact Hd |].
  split; [exact Hnone |]. split; [exact Htop |]. split; [exact Hrank |].
  exact (@no_fix_found_is_recorded
           Sample.forwards_predict Sample.backwards_predict
           Sample.accepts_nothing Sample.to_index Sample.id_to_token
           3 "0a1b2c"%string
           (VectorizeTokens.vectorize_tokens Sample.to_index Sample.tokens)
           Sample.tokens Sample.mutated_tokens Sample.mutation
           Sample.entries Sample.detected 5 20 None
           Hload Hline Hd Hnone Htop Hrank).
Defined.

(** ** More about [detect.rank] *)

Lemma enumerate_In_nth {A : Type} (l : list A) :
  forall (start i : nat) (x : A),
    In (i, x) (Py.enumerate start l) ->
    exists n, i = start + n /\ nth_error l n = Some x.
Proof.
  induction l as [|y l IH]; intros start i x H.
  - destruct H.
  - rewrite enumerate_cons in H. destruct H as [E | H].
    + injection E as <- <-. exists 0. split; [lia | reflexivity].
    + destruct (IH _ _ _ H) as (n & -> & Hn).
      exists (S n). split; [lia | exact Hn].
Qed.

Lemma enumerate_ids {A : Type} (l : list A) :
  forall start : nat,
    map fst (Py.enumerate start l) = seq start (length l).
Proof.
  induction l as [|y l IH]; intros start; [reflexivity |].
  rewrite enumerate_cons. simpl. now rewrite IH.
Qed.

Lemma rank_In_iff (predictions : Np.ndarray) (i : nat) (p : Q) :
  In (i, p) (Detect.rank predictions) <-> nth_error predictions i = Some p.
Proof.
  split; intros H.
  - apply (Permutation_in _ (rank_Permutation predictions)) in H.
    destruct (enumerate_In_nth _ _ _ _ H) as (n & -> & Hn). exact Hn.
  - apply (Permutation_in _ (Permutation_sym (rank_Permutation predictions))).
    exact (enumerate_nth_In predictions 0 i H).
Qed.

Lemma outranksb_rank_order (a b : nat * Q) :
  MoreProps.outranksb a b = true <-> Props.rank_order a b.
Proof.
  unfold MoreProps.outranksb, Props.rank_order.
  rewrite orb_true_iff, andb_true_iff, Qltb_lt, Qeq_bool_iff, Nat.ltb_lt.
  tauto.
Qed.

Lemma rank_order_asym (a b : nat * Q) :
  Props.rank_order a b -> ~ Props.rank_order b a.
Proof.
  unfold Props.rank_order. intros [H | [H1 H2]] [H' | [H1' H2']];
    try lra; try lia.
Qed.

Lemma Permutation_filter_length {A : Type} (f : A -> bool) (l l' : list A) :
  Permutation l l' -> length (filter f l) = length (filter f l').
Proof.
  induction 1 as [| x l l' _ IH | x y l | l l' l'' _ IH1 _ IH2]; simpl.
  - reflexivity.
  - destruct (f x); simpl; now rewrite IH.
  - destruct (f x), (f y); reflexivity.
  - now rewrite IH1.
Qed.

Lemma filter_none {A : Type} (f : A -> bool) (l : list A) :
  (forall x, In x l -> f x = false) -> filter f l = [].
Proof.
  induction l as [| x l IH]; intros H; simpl; [reflexivity |].
  rewrite (H x (or_introl eq_refl)). apply IH. intros y Hy. apply H. now right.
Qed.

(** In a ranking, the entries that outrank an entry are the ones before
    it. *)
Lemma rank_position_counts (predictions : Np.ndarray) (l1 l2 : list (nat * Q))
    (e : nat * Q) :
  Detect.rank predictions = l1 ++ e :: l2 ->
  length (filter (fun x => MoreProps.outranksb x e)
                 (Py.enumerate 0 predictions)) = length l1.
Proof.
  intros H.
  rewrite <- (Permutation_filter_length _ (rank_Permutation predictions)).
  pose proof (rank_sorted predictions) as Hs. rewrite H in Hs.
  rewrite H, filter_app. cbn [filter].
  assert (He : MoreProps.outranksb e e = false).
  { apply not_true_iff_false. rewrite outranksb_rank_order.
    intros Hr. exact (rank_order_asym Hr Hr). }
  rewrite He, length_app.
  assert (H1 : filter (fun x => MoreProps.outranksb x e) l1 = l1).
  { apply forallb_filter_id. apply forallb_forall. intros x Hx.
    apply outranksb_rank_order.
    destruct (in_split _ _ Hx) as (m1 & m2 & ->).
    rewrite <- app_assoc in Hs. simpl in Hs.
    eapply sorted_app_In; [exact Hs |]. apply in_or_app. right. now left. }
  assert (H2 : filter (fun x => MoreProps.outranksb x e) l2 = []).
  { apply filter_none. intros x Hx.
    apply not_true_iff_false. rewrite outranksb_rank_order.
    apply rank_order_asym. eapply sorted_app_In; [exact Hs | exact Hx]. }
  rewrite H1, H2. simpl. lia.
Qed.

(** X1: [rank] pairs every id with its own probability, each id once. *)
Theorem rank_pairs_each_id_with_its_probability :
  forall predictions : Np.ndarray,
    (forall i p,
        In (i, p) (Detect.rank predictions)
        <-> nth_error predictions i = Some p)
    /\ Permutation (map fst (Detect.rank predictions))
                   (seq 0 (length predictions))
    /\ length (Detect.rank predictions) = length predictions.
Proof.
  intros predictions. split; [intros i p; apply rank_In_iff |].
  split; [| apply rank_length].
  rewrite <- (enumerate_ids predictions 0).
  apply Permutation_map, rank_Permutation.
Qed.

(** X2: the pair [rank] puts first holds a largest probability, and the
    smallest id among the ids that reach it. *)
Theorem rank_first_is_first_maximum :
  forall (predictions : Np.ndarray) (i : nat) (v : Q) (rest : list (nat * Q)),
    Detect.rank predictions = (i, v) :: rest ->
    nth_error predictions i = Some v
    /\ forall j x,
         nth_error predictions j = Some x ->
         (x <= v)%Q /\ ((x == v)%Q -> i <= j).
Proof.
  intros predictions i v rest H. split.
  - apply rank_In_iff. rewrite H. now left.
  - intros j x Hj. apply rank_In_iff in Hj. rewrite H in Hj.
    pose proof (rank_sorted predictions) as Hs. rewrite H in Hs.
    inversion Hs as [| ? ? _ Hall]; subst.
    destruct Hj as [E | Hin].
    + injection E as <- <-. split; [lra | lia].
    + rewrite Forall_forall in Hall.
      destruct (Hall _ Hin) as [Hlt | [Heq Hij]]; simpl in *.
      * split; [lra | intros; lra].
      * split; [lra | lia].
Qed.

Lemma rank_first_is_first_maximum_witness :
  Detect.rank [(1 # 2)%Q; (2 # 4)%Q; (1 # 10)%Q; (1 # 2)%Q]
  = (0, (1 # 2)%Q) :: [(1, (2 # 4)%Q); (3, (1 # 2)%Q); (2, (1 # 10)%Q)]
  /\ nth_error [(1 # 2)%Q; (2 # 4)%Q; (1 # 10)%Q; (1 # 2)%Q] 0
     = Some (1 # 2)%Q
  /\ forall j x,
       nth_error [(1 # 2)%Q; (2 # 4)%Q; (1 # 10)%Q; (1 # 2)%Q] j = Some x ->
       (x <= 1 # 2)%Q /\ ((x == 1 # 2)%Q -> 0 <= j).
Proof.
  assert (H : Detect.rank [(1 # 2)%Q; (2 # 4)%Q; (1 # 10)%Q; (1 # 2)%Q]
              = (0, (1 # 2)%Q)
                  :: [(1, (2 # 4)%Q); (3, (1 # 2)%Q); (2, (1 # 10)%Q)])
    by reflexivity.
  split; [exact H |].
  exact (@rank_first_is_first_maximum _ _ _ _ H).
Defined.

(** ** The report of [detect.py] *)

Lemma fold_show_guess (actual : nat) (guesses : list (nat * Q)) :
  forall (found_it : bool) (lines : list DetectMain.printed),
    fold_left (DetectMain.show_guess actual) guesses (found_it, lines)
    = (found_it || existsb (fun g => fst g =? actual) guesses,
       lines ++ map (fun g => DetectMain.Guess (snd g * 100)%Q (fst g)
                                               (fst g =? actual)) guesses).
Proof.
  induction guesses as [| [token_id weight] guesses IH];
    intros found_it lines; simpl.
  - now rewrite orb_false_r, app_nil_r.
  - rewrite IH, <- app_assoc. simpl.
    destruct (token_id =? actual), found_it; reflexivity.
Qed.

Lemma report_found_iff (predictions : Np.ndarray) (actual : nat) :
  fst (DetectMain.report predictions actual) = true
  <-> exists p, In (actual, p) (firstn 5 (Detect.rank predictions)).
Proof.
  unfold DetectMain.report. rewrite fold_show_guess. cbn [fst orb].
  rewrite existsb_exists. split.
  - intros ([i p] & Hin & E). simpl in E. apply Nat.eqb_eq in E. subst i.
    now exists p.
  - intros (p & Hin). exists (actual, p). split; [exact Hin |].
    simpl. apply Nat.eqb_refl.
Qed.

(** X3: the main loop of [detect.py] reports the actual token as found
    exactly when fewer than five ids outrank it, by a higher probability or
    by the same probability and a smaller id; it prints five guesses, or as
    many as there are ids, and the actual token after them only when it was
    not found. *)
Theorem report_finds_actual_among_five_best :
  forall (predictions : Np.ndarray) (actual : nat),
    (fst (DetectMain.report predictions actual) = true
     <-> exists p,
           nth_error predictions actual = Some p
           /\ length (filter (fun e => MoreProps.outranksb e (actual, p))
                             (Py.enumerate 0 predictions)) < 5)
    /\ length (snd (DetectMain.report predictions actual))
       = Nat.min 5 (length predictions)
         + (if fst (DetectMain.report predictions actual) then 0 else 1)
    /\ (In (DetectMain.Actual actual)
           (snd (DetectMain.report predictions actual))
        <-> fst (DetectMain.report predictions actual) = false).
Proof.
  intros predictions actual. split; [| split].
  - rewrite report_found_iff. split.
    + intros (p & Hin). exists p.
      assert (Hr : In (actual, p) (Detect.rank predictions)).
      { rewrite <- (firstn_skipn 5 (Detect.rank predictions)).
        apply in_or_app. now left. }
      split; [now apply rank_In_iff |].
      destruct (in_split _ _ Hin) as (l1 & l2 & E).
      assert (Hl1 : length l1 < 5).
      { apply (f_equal (@length _)) in E.
        rewrite length_app in E. cbn [length] in E.
        pose proof (firstn_le_length 5 (Detect.rank predictions)). lia. }
      rewrite (@rank_position_counts predictions l1
                 (l2 ++ skipn 5 (Detect.rank predictions)) (actual, p));
        [exact Hl1 |].
      rewrite <- (firstn_skipn 5 (Detect.rank predictions)) at 1.
      rewrite E, <- app_assoc. reflexivity.
    + intros (p & Hp & Hcount). exists p.
      apply rank_In_iff in Hp.
      destruct (in_split _ _ Hp) as (l1 & l2 & E).
      rewrite (@rank_position_counts _ _ _ _ E) in Hcount.
      rewrite E, firstn_app.
      apply in_or_app. right.
      destruct (5 - length l1) as [| n] eqn:En; [lia |]. now left.
  - unfold DetectMain.report. rewrite fold_show_guess. cbn [fst snd orb].
    destruct (existsb _ _); cbn [app];
      rewrite ?length_app, length_map, length_firstn, rank_length;
      cbn [length]; lia.
  - unfold DetectMain.report. rewrite fold_show_guess. cbn [fst snd orb].
    destruct (existsb _ _); cbn [app].
    + split; [| discriminate]. intros H.
      apply in_map_iff in H. destruct H as (g & Hg & _). discriminate.
    + split; [reflexivity |]. intros _.
      apply in_or_app. right. now left.
Qed.

(** ** More about [fix_zeros] and the two agreements *)

(** X4: on an array of floats, with the default epsilon, 2^-52,
    [fix_zeros] keeps the length of the array, stores epsilon at the
    entries that are exactly zero and nowhere else, however small the other
    entries are, leaves no zero behind, and a second call changes
    nothing. *)
Theorem fix_zeros_replaces_exact_zeros_only :
  forall preds : Np.ndarray,
    length (Evaluate.fix_zeros Py.float_info_epsilon preds) = length preds
    /\ (forall i x,
           nth_error preds i = Some x ->
           ((x == 0)%Q ->
            nth_error (Evaluate.fix_zeros Py.float_info_epsilon preds) i
            = Some Py.float_info_epsilon)
           /\ (~ (x == 0)%Q ->
               nth_error (Evaluate.fix_zeros Py.float_info_epsilon preds) i
               = Some x))
    /\ Forall (fun x => ~ (x == 0)%Q)
              (Evaluate.fix_zeros Py.float_info_epsilon preds)
    /\ Evaluate.fix_zeros Py.float_info_epsilon
         (Evaluate.fix_zeros Py.float_info_epsilon preds)
       = Evaluate.fix_zeros Py.float_info_epsilon preds.
Proof.
  intros preds.
  assert (He : ~ (Py.float_info_epsilon == 0)%Q) by discriminate.
  split; [now rewrite fix_zeros_map, length_map |].
  split; [| split].
  - intros i x Hi. rewrite fix_zeros_map, nth_error_map, Hi.
    unfold Props.zero_to_epsilon. cbn [option_map]. split; intros Hx.
    + apply Qeq_bool_iff in Hx. now rewrite Hx.
    + apply Qeq_bool_false in Hx. now rewrite Hx.
  - rewrite fix_zeros_map, Forall_map, Forall_forall. intros x _.
    unfold Props.zero_to_epsilon.
    destruct (Qeq_bool x 0) eqn:E; [exact He | now apply Qeq_bool_false].
  - now apply fix_zeros_idempotent.
Qed.

Lemma fix_zeros_replaces_exact_zeros_only_witness :
  Evaluate.fix_zeros Py.float_info_epsilon
    [1%Q; 0%Q; (0 # 5)%Q; (1 # 1000000000000000000000000000000)%Q]
  = [1%Q; Py.float_info_epsilon; Py.float_info_epsilon;
     (1 # 1000000000000000000000000000000)%Q]
  /\ Forall (fun x => ~ (x == 0)%Q)
            (Evaluate.fix_zeros Py.float_info_epsilon
               [1%Q; 0%Q; (0 # 5)%Q;
                (1 # 1000000000000000000000000000000)%Q]).
Proof.
  split; [vm_compute; reflexivity |].
  exact (proj1 (proj2 (proj2
           (fix_zeros_replaces_exact_zeros_only
              [1%Q; 0%Q; (0 # 5)%Q;
               (1 # 1000000000000000000000000000000)%Q])))).
Defined.

Lemma sum_nonneg (l : Np.ndarray) :
  Forall (fun x => (0 <= x)%Q) l -> (0 <= Py.sum l)%Q.
Proof.
  unfold Py.sum. induction 1 as [| x l Hx _ IH]; simpl; [lra |].
  rewrite fold_left_Qplus. lra.
Qed.

(** The squared differences of two non-negative vectors add up to at most
    the squares of their sums. *)
Lemma sum_squared_differences_bound (p : Np.ndarray) :
  forall q : Np.ndarray,
    Forall (fun x => (0 <= x)%Q) p ->
    Forall (fun x => (0 <= x)%Q) q ->
    (Props.sum_squared_differences p q
     <= Py.sum p * Py.sum p + Py.sum q * Py.sum q)%Q.
Proof.
  induction p as [| x p IH]; intros [| y q] Hp Hq;
    cbn [Props.sum_squared_differences].
  - vm_compute. discriminate.
  - pose proof (sum_nonneg Hq). nra.
  - pose proof (sum_nonneg Hp). nra.
  - inversion Hp as [| ? ? Hx Hp']; inversion Hq as [| ? ? Hy Hq']; subst.
    specialize (IH q Hp' Hq').
    pose proof (sum_nonneg Hp') as Sp. pose proof (sum_nonneg Hq') as Sq.
    unfold Py.sum in *. cbn [fold_left].
    rewrite (fold_left_Qplus p (0 + x)), (fold_left_Qplus q (0 + y)).
    rewrite Qsquare. nra.
Qed.

(** What the assertion on the sum of a prediction lets through. *)
Lemma isclose_one_bound (s : Q) :
  Py.isclose s 1 (1 # 100) Py.default_abs_tol = true ->
  (99 # 100 <= s <= 100 # 99)%Q.
Proof.
  unfold Py.isclose, Py.default_abs_tol. rewrite Qle_bool_iff.
  assert (H1 : (Qabs 1 == 1)%Q) by reflexivity.
  pose proof (Q.max_spec (Qabs s) (Qabs 1)) as M1.
  pose proof (Q.max_spec ((1 # 100) * Qmax (Qabs s) (Qabs 1)) 0) as M2.
  destruct (Qlt_le_dec s 0) as [Hs | Hs];
    [assert (A1 : (Qabs s == - s)%Q) by (apply Qabs_neg; lra)
    | assert (A1 : (Qabs s == s)%Q) by (apply Qabs_pos; lra)];
    (destruct (Qlt_le_dec (s - 1) 0) as [Hd | Hd];
     [assert (A2 : (Qabs (s - 1) == - (s - 1))%Q) by (apply Qabs_neg; lra)
     | assert (A2 : (Qabs (s - 1) == s - 1)%Q) by (apply Qabs_pos; lra)]);
    intros H; lra.
Qed.

(** X5: on two vectors of equal length without negative entries whose sums
    pass the assertion of the detection loop, the agreement lies between
    -2 (100/99)^2 and 0; when both sums are exactly 1 it is at least -2. *)
Theorem squared_error_agreement_range :
  forall p q : Np.ndarray,
    length p = length q ->
    Forall (fun x => (0 <= x)%Q) p ->
    Forall (fun x => (0 <= x)%Q) q ->
    Py.isclose (Py.sum p) 1 (1 # 100) Py.default_abs_tol = true ->
    Py.isclose (Py.sum q) 1 (1 # 100) Py.default_abs_tol = true ->
    exists s,
      Evaluate.squared_error_agreement p q = Py.Ok s
      /\ (- (20000 # 9801) <= s)%Q
      /\ (s <= 0)%Q
      /\ ((Py.sum p == 1)%Q -> (Py.sum q == 1)%Q -> (-2 <= s)%Q).
Proof.
  intros p q Hlen Hp Hq Cp Cq.
  destruct (squared_error_agreement_value p q Hlen) as (s & Hs & Es).
  exists s. split; [exact Hs |].
  pose proof (sum_squared_differences_bound Hp Hq) as Hb.
  pose proof (sum_squared_differences_nonneg p q) as Hn.
  apply isclose_one_bound in Cp. apply isclose_one_bound in Cq.
  split; [| split].
  - assert ((Py.sum p * Py.sum p <= (100 # 99) * (100 # 99))%Q) by nra.
    assert ((Py.sum q * Py.sum q <= (100 # 99) * (100 # 99))%Q) by nra.
    lra.
  - lra.
  - intros E1 E2. rewrite E1, E2 in Hb. lra.
Qed.

Lemma squared_error_agreement_range_witness :
  length [1%Q; 0%Q; 0%Q] = length [0%Q; 1%Q; 0%Q]
  /\ Py.isclose (Py.sum [1%Q; 0%Q; 0%Q]) 1 (1 # 100) Py.default_abs_tol = true
  /\ Py.isclose (Py.sum [0%Q; 1%Q; 0%Q]) 1 (1 # 100) Py.default_abs_tol = true
  /\ exists s,
       Evaluate.squared_error_agreement [1%Q; 0%Q; 0%Q] [0%Q; 1%Q; 0%Q]
       = Py.Ok s
       /\ (- (20000 # 9801) <= s)%Q
       /\ (s <= 0)%Q
       /\ ((Py.sum [1%Q; 0%Q; 0%Q] == 1)%Q ->
           (Py.sum [0%Q; 1%Q; 0%Q] == 1)%Q -> (-2 <= s)%Q).
Proof.
  assert (H2 : Forall (fun x => (0 <= x)%Q) [1%Q; 0%Q; 0%Q])
    by (repeat constructor; discriminate).
  assert (H3 : Forall (fun x => (0 <= x)%Q) [0%Q; 1%Q; 0%Q])
    by (repeat constructor; discriminate).
  split; [reflexivity |]. split; [reflexivity |]. split; [reflexivity |].
  exact (@squared_error_agreement_range
           [1%Q; 0%Q; 0%Q] [0%Q; 1%Q; 0%Q] eq_refl H2 H3 eq_refl eq_refl).
Defined.

Lemma all_finite_length (a : list Np.npfloat) (m : Np.ndarray) :
  Np.all_finite a = Some m -> length m = length a.
Proof.
  revert m. induction a as [| [x |] a IH]; simpl; intros m H.
  - now injection H as <-.
  - destruct (Np.all_finite a) as [m' |]; [| discriminate].
    injection H as <-. simpl. now rewrite (IH m' eq_refl).
  - discriminate.
Qed.

Lemma zip_with_length {B : Type} (f : Q -> Q -> B) (a : Np.ndarray) :
  forall b : Np.ndarray,
    length a = length b -> length (Np.zip_with f a b) = length a.
Proof.
  induction a as [| x a IH]; intros [| y b] H; simpl in *;
    try discriminate; [reflexivity |].
  now rewrite IH by lia.
Qed.

(** X6: the value [harmonic_mean_agreement] returns, when it is a finite
    number, is an entry of the harmonic mean of the two arrays after
    [fix_zeros], and no entry of that mean is larger. *)
Theorem harmonic_mean_agreement_is_largest_entry :
  forall (p q : Np.ndarray) (v : Q),
    snd (Evaluate.harmonic_mean_agreement p q) = Py.Ok (Np.Finite v) ->
    exists mean,
      Detect.harmonic_mean (Evaluate.fix_zeros Py.float_info_epsilon p)
                           (Evaluate.fix_zeros Py.float_info_epsilon q)
      = Py.Ok (map Np.Finite mean)
      /\ fst (Evaluate.harmonic_mean_agreement p q)
         = (Evaluate.fix_zeros Py.float_info_epsilon p,
            Evaluate.fix_zeros Py.float_info_epsilon q)
      /\ In v mean
      /\ Forall (fun x => (x <= v)%Q) mean.
Proof.
  intros p q v H.
  destruct (harmonic_mean_agreement_largest p q H) as (mean & Hm & Hin & Hmax).
  exists mean. repeat split; assumption.
Qed.

Lemma harmonic_mean_agreement_is_largest_entry_witness :
  snd (Evaluate.harmonic_mean_agreement
         [(3 # 4)%Q; (1 # 4)%Q; 0%Q] [(1 # 4)%Q; (3 # 4)%Q; 0%Q])
  = Py.Ok (Np.Finite (6 # 16))
  /\ exists mean,
       Detect.harmonic_mean
         (Evaluate.fix_zeros Py.float_info_epsilon [(3 # 4)%Q; (1 # 4)%Q; 0%Q])
         (Evaluate.fix_zeros Py.float_info_epsilon [(1 # 4)%Q; (3 # 4)%Q; 0%Q])
       = Py.Ok (map Np.Finite mean)
       /\ fst (Evaluate.harmonic_mean_agreement
                 [(3 # 4)%Q; (1 # 4)%Q; 0%Q] [(1 # 4)%Q; (3 # 4)%Q; 0%Q])
          = (Evaluate.fix_zeros Py.float_info_epsilon
               [(3 # 4)%Q; (1 # 4)%Q; 0%Q],
             Evaluate.fix_zeros Py.float_info_epsilon
               [(1 # 4)%Q; (3 # 4)%Q; 0%Q])
       /\ In (6 # 16)%Q mean
       /\ Forall (fun x => (x <= 6 # 16)%Q) mean.
Proof.
  assert (H : snd (Evaluate.harmonic_mean_agreement
                     [(3 # 4)%Q; (1 # 4)%Q; 0%Q] [(1 # 4)%Q; (3 # 4)%Q; 0%Q])
              = Py.Ok (Np.Finite (6 # 16)))
    by (vm_compute; reflexivity).
  split; [exact H |].
  exact (@harmonic_mean_agreement_is_largest_entry _ _ _ H).
Defined.

Lemma harmonic_mean_agreement_returns (p q : Np.ndarray) :
  length p = length q -> p <> [] ->
  exists v, snd (Evaluate.harmonic_mean_agreement p q) = Py.Ok v.
Proof.
  intros Hlen Hne. unfold Evaluate.harmonic_mean_agreement. cbn [snd].
  unfold Detect.harmonic_mean, Np.elementwise.
  rewrite !fix_zeros_map, !length_map, Hlen, Nat.eqb_refl. cbn [Py.bind].
  destruct (Np.all_finite _) as [mean |] eqn:Ef; [| eauto].
  destruct (Detect.rank mean) as [| [i v] rest] eqn:Er; [| eauto].
  exfalso. apply (f_equal (@length _)) in Er.
  rewrite rank_length, (all_finite_length _ Ef), zip_with_length in Er
    by (now rewrite !length_map).
  rewrite length_map in Er. destruct p; [congruence | discriminate].
Qed.

(** X7: on two arrays of one length [harmonic_mean_agreement] raises
    [IndexError] when they are empty and returns a value otherwise; on
    lengths that differ, neither of them 1, it raises [ValueError]. *)
Theorem harmonic_mean_agreement_exceptions :
  forall p q : Np.ndarray,
    (length p = length q -> p = [] ->
     snd (Evaluate.harmonic_mean_agreement p q) = Py.Raise Py.IndexError)
    /\ (length p = length q -> p <> [] ->
        exists v, snd (Evaluate.harmonic_mean_agreement p q) = Py.Ok v)
    /\ (length p <> length q -> length p <> 1 -> length q <> 1 ->
        snd (Evaluate.harmonic_mean_agreement p q) = Py.Raise Py.ValueError).
Proof.
  intros p q. split; [| split].
  - intros Hlen ->. destruct q; [reflexivity | discriminate].
  - apply harmonic_mean_agreement_returns.
  - intros Hne Hp Hq.
    unfold Evaluate.harmonic_mean_agreement. cbn [snd].
    unfold Detect.harmonic_mean, Np.elementwise.
    rewrite !fix_zeros_map, !length_map.
    apply Nat.eqb_neq in Hne, Hp, Hq. now rewrite Hne, Hp, Hq.
Qed.

Lemma harmonic_mean_agreement_exceptions_witness :
  snd (Evaluate.harmonic_mean_agreement
         [(1 # 2)%Q; (1 # 2)%Q] [(1 # 3)%Q; (1 # 3)%Q; (1 # 3)%Q])
  = Py.Raise Py.ValueError.
Proof.
  apply (proj2 (proj2 (harmonic_mean_agreement_exceptions
                         [(1 # 2)%Q; (1 # 2)%Q]
                         [(1 # 3)%Q; (1 # 3)%Q; (1 # 3)%Q])));
    cbn [length]; lia.
Defined.

(** ** More about [rank_and_fix] *)

Lemma rank_and_fix_Ok (forwards_predict backwards_predict : list nat -> Np.ndarray)
    (check_syntax : list Corpus.Token -> bool) (to_index : string -> nat)
    (id_to_token : nat -> Corpus.Token) (tokens : list Corpus.Token)
    (ranked : list Detect.Agreement) (fix_ : option Detect.Fix) :
  Evaluate.rank_and_fix forwards_predict backwards_predict check_syntax
    to_index id_to_token tokens = Py.Ok (ranked, fix_) ->
  exists st,
    Evaluate.detect forwards_predict backwards_predict tokens
      (VectorizeTokens.vectorize_tokens to_index tokens) = Py.Ok st
    /\ ranked = Py.list_sort Detect.Agreement_ltb (Evaluate.least_agreements st)
    /\ fix_ = find (Detect.validates check_syntax tokens 1)
                   (flat_map (Props.candidates id_to_token st)
                             (firstn 3 ranked)).
Proof.
  intros H.
  assert (Hd : exists st,
             Evaluate.detect forwards_predict backwards_predict tokens
               (VectorizeTokens.vectorize_tokens to_index tokens) = Py.Ok st).
  { unfold Evaluate.rank_and_fix in H.
    destruct (Evaluate.detect _ _ _ _) as [st | e]; [eauto | discriminate]. }
  destruct Hd as [st Hd]. exists st. split; [exact Hd |].
  rewrite (rank_and_fix_first_validated forwards_predict backwards_predict
             check_syntax to_index id_to_token tokens Hd) in H.
  injection H as <- <-. split; reflexivity.
Qed.

Lemma scored_positions_indices (file_vector : list nat) :
  map fst (Props.scored_positions file_vector)
  = seq Evaluate.sentence_length
        (length file_vector - 1 - Evaluate.sentence_length).
Proof.
  rewrite scored_positions_windows, map_map. cbn [fst]. apply map_id.
Qed.

(** X8: the ranking [rank_and_fix] returns is in ascending order of score,
    ties in ascending order of index, and holds every position the loop has
    visited exactly once. *)
Theorem ranking_is_sorted_and_complete :
  forall (forwards_predict backwards_predict : list nat -> Np.ndarray)
         (check_syntax : list Corpus.Token -> bool)
         (to_index : string -> nat) (id_to_token : nat -> Corpus.Token)
         (tokens : list Corpus.Token)
         (ranked : list Detect.Agreement) (fix_ : option Detect.Fix),
    Evaluate.rank_and_fix forwards_predict backwards_predict check_syntax
      to_index id_to_token tokens = Py.Ok (ranked, fix_) ->
    StronglySorted MoreProps.agreement_le ranked
    /\ Permutation (map Detect.index ranked)
         (map fst (Props.scored_positions
                     (VectorizeTokens.vectorize_tokens to_index tokens)))
    /\ NoDup (map Detect.index ranked).
Proof.
  intros fp bp check to_index id_to_token tokens ranked fix_ H.
  destruct (rank_and_fix_Ok _ _ _ _ _ _ H) as (st & Hd & -> & _).
  assert (Hperm : Permutation
            (map Detect.index
               (Py.list_sort Detect.Agreement_ltb (Evaluate.least_agreements st)))
            (map fst (Props.scored_positions
                        (VectorizeTokens.vectorize_tokens to_index tokens)))).
  { rewrite <- (detect_indices fp bp tokens _ Hd).
    apply Permutation_map, list_sort_Permutation. }
  split; [| split].
  - eapply StronglySorted_weaken; [| apply agreements_sorted].
    intros a b _ _ [Hlt | (H1 & H2 & _)]; unfold Detect.Agreement_ltb in *;
      unfold MoreProps.agreement_le.
    + destruct (Qeq_bool (Detect.probability a) (Detect.probability b)) eqn:E;
        qbool; [right; split; [exact E | lia] | now left].
    + destruct (Qeq_bool (Detect.probability a) (Detect.probability b)) eqn:E1,
               (Qeq_bool (Detect.probability b) (Detect.probability a)) eqn:E2;
        qbool.
      * right. split; [exact E1 | lia].
      * exfalso. apply E2. now symmetry.
      * exfalso. apply E1. now symmetry.
      * exfalso. apply E1. lra.
  - exact Hperm.
  - apply (Permutation_NoDup (Permutation_sym Hperm)).
    rewrite scored_positions_indices. apply seq_NoDup.
Qed.

Lemma ranking_is_sorted_and_complete_witness :
  exists ranked fix_,
    Evaluate.rank_and_fix Sample.forwards_predict Sample.backwards_predict
      Sample.accepts_one_more Sample.to_index Sample.id_to_token
      Sample.tokens = Py.Ok (ranked, fix_)
    /\ StronglySorted MoreProps.agreement_le ranked
    /\ Permutation (map Detect.index ranked)
         (map fst (Props.scored_positions
                     (VectorizeTokens.vectorize_tokens Sample.to_index
                        Sample.tokens)))
    /\ NoDup (map Detect.index ranked).
Proof.
  assert (H : exists ranked fix_,
             Evaluate.rank_and_fix Sample.forwards_predict
               Sample.backwards_predict Sample.accepts_one_more
               Sample.to_index Sample.id_to_token Sample.tokens
             = Py.Ok (ranked, fix_)).
  { eexists. eexists. vm_compute. reflexivity. }
  destruct H as (ranked & fix_ & H).
  exists ranked, fix_. split; [exact H |].
  exact (@ranking_is_sorted_and_complete _ _ _ _ _ _ _ _ H).
Defined.

(** X9: a fix [rank_and_fix] returns has passed the syntax check, sits at
    one of the first three positions of the ranking, and is a removal
    without a token or an insertion with one: never a substitution. *)
Theorem returned_fix_is_validated :
  forall (forwards_predict backwards_predict : list nat -> Np.ndarray)
         (check_syntax : list Corpus.Token -> bool)
         (to_index : string -> nat) (id_to_token : nat -> Corpus.Token)
         (tokens : list Corpus.Token)
         (ranked : list Detect.Agreement) (f : Detect.Fix),
    Evaluate.rank_and_fix forwards_predict backwards_predict check_syntax
      to_index id_to_token tokens = Py.Ok (ranked, Some f) ->
    check_syntax (Detect.apply_fix tokens 1 f) = true
    /\ In (Detect.location f) (map Detect.index (firstn 3 ranked))
    /\ ((Detect.kind f = Detect.remove /\ Detect.token f = None)
        \/ (Detect.kind f = Detect.insert
            /\ exists t, Detect.token f = Some t)).
Proof.
  intros fp bp check to_index id_to_token tokens ranked f H.
  destruct (rank_and_fix_Ok _ _ _ _ _ _ H) as (st & _ & _ & Hf).
  symmetry in Hf. apply find_some in Hf. destruct Hf as [Hin Hv].
  split; [exact Hv |].
  apply in_flat_map in Hin. destruct Hin as (d & Hd & Hc).
  unfold Props.candidates in Hc.
  destruct Hc as [<- | [<- | [<- | []]]]; cbn [Detect.location Detect.kind
                                                 Detect.token].
  - split; [now apply in_map | now left].
  - split; [now apply in_map | right; eauto].
  - split; [now apply in_map | right; eauto].
Qed.

Lemma returned_fix_is_validated_witness :
  exists ranked,
    Evaluate.rank_and_fix Sample.forwards_predict Sample.backwards_predict
      Sample.accepts_one_more Sample.to_index Sample.id_to_token
      Sample.tokens
    = Py.Ok (ranked,
             Some (Detect.mkFix Detect.insert 20
                     (Some (Sample.id_to_token 0))))
    /\ Sample.accepts_one_more
         (Detect.apply_fix Sample.tokens 1
            (Detect.mkFix Detect.insert 20 (Some (Sample.id_to_token 0))))
       = true
    /\ In 20 (map Detect.index (firstn 3 ranked)).
Proof.
  assert (H : exists ranked,
             Evaluate.rank_and_fix Sample.forwards_predict
               Sample.backwards_predict Sample.accepts_one_more
               Sample.to_index Sample.id_to_token Sample.tokens
             = Py.Ok (ranked,
                      Some (Detect.mkFix Detect.insert 20
                              (Some (Sample.id_to_token 0))))).
  { eexists. vm_compute. reflexivity. }
  destruct H as (ranked & H).
  exists ranked. split; [exact H |].
  pose proof (@returned_fix_is_validated _ _ _ _ _ _ _ _ H) as (Hv & Hin & _).
  split; [exact Hv | exact Hin].
Defined.

(** X10: when removing the token at the first position of the ranking
    gives a stream the checker accepts, that removal is the fix returned,
    whatever the insertions would give. *)
Theorem removal_at_top_disagreement_wins :
  forall (forwards_predict backwards_predict : list nat -> Np.ndarray)
         (check_syntax : list Corpus.Token -> bool)
         (to_index : string -> nat) (id_to_token : nat -> Corpus.Token)
         (tokens : list Corpus.Token)
         (disagreement : Detect.Agreement) (rest : list Detect.Agreement)
         (fix_ : option Detect.Fix),
    Evaluate.rank_and_fix forwards_predict backwards_predict check_syntax
      to_index id_to_token tokens = Py.Ok (disagreement :: rest, fix_) ->
    check_syntax
      (Detect.apply_fix tokens 1
         (Detect.mkFix Detect.remove (Detect.index disagreement) None))
    = true ->
    fix_ = Some (Detect.mkFix Detect.remove (Detect.index disagreement) None).
Proof.
  intros fp bp check to_index id_to_token tokens d rest fix_ H Hv.
  destruct (rank_and_fix_Ok _ _ _ _ _ _ H) as (st & _ & _ & ->).
  cbn [firstn flat_map Props.candidates app find].
  unfold Detect.validates at 1. now rewrite Hv.
Qed.

Lemma removal_at_top_disagreement_wins_witness :
  exists rest fix_,
    Evaluate.rank_and_fix Sample.forwards_predict Sample.backwards_predict
      MoreSample.accepts_one_less Sample.to_index Sample.id_to_token
      Sample.tokens
    = Py.Ok (Detect.mkAgreement (-2 # 1) 20 :: rest, fix_)
    /\ MoreSample.accepts_one_less
         (Detect.apply_fix Sample.tokens 1 (Detect.mkFix Detect.remove 20 None))
       = true
    /\ fix_ = Some (Detect.mkFix Detect.remove 20 None).
Proof.
  assert (H : exists rest fix_,
             Evaluate.rank_and_fix Sample.forwards_predict
               Sample.backwards_predict MoreSample.accepts_one_less
               Sample.to_index Sample.id_to_token Sample.tokens
             = Py.Ok (Detect.mkAgreement (-2 # 1) 20 :: rest, fix_)).
  { eexists. eexists. vm_compute. reflexivity. }
  destruct H as (rest & fix_ & H).
  assert (Hv : MoreSample.accepts_one_less
                 (Detect.apply_fix Sample.tokens 1
                    (Detect.mkFix Detect.remove 20 None)) = true)
    by (vm_compute; reflexivity).
  exists rest, fix_. split; [exact H |]. split; [exact Hv |].
  exact (@removal_at_top_disagreement_wins _ _ _ _ _ _ _ _ _ H Hv).
Defined.

(** ** The detection loop on well-formed predictions *)

Section LoopFacts.
Import Py Np Corpus TrainingUtils VectorizeTokens Detect Evaluate Props.
Variable forwards_predict : list nat -> ndarray.
Variable backwards_predict : list nat -> ndarray.
Variable tokens : list Token.
Variable file_vector : list nat.

Abbreviation loop_body :=
  (score_position forwards_predict backwards_predict tokens file_vector).




(** What one turn of the loop has checked and stored when it returns. *)
Lemma score_position_stores (st st' : detection) (k : nat)
    (prefix suffix : list nat) (t t' : nat) :
  loop_body st (k, ((prefix, t), (suffix, t'))) = Ok st' ->
  exists i j,
    index_of_max (forwards_predict prefix) = Ok i
    /\ index_of_max (backwards_predict suffix) = Ok j
    /\ forwards_predictions st' = forwards_predictions st ++ [Some i]
    /\ backwards_predictions st' = backwards_predictions st ++ [Some j].
Proof.
  unfold score_position. intros H.
  bind_inv H as actual Hactual. bind_inv H as u1 Htarget.
  bind_inv H as u2 Hsum1. bind_inv H as u3 Hsum2.
  bind_inv H as i Hi. bind_inv H as j Hj.
  bind_inv H as stored Hstored. bind_inv H as u4 Hsame.
  bind_inv H as s Hs.
  bind_inv H as diagnostic Hdiag. bind_inv H as printed Hprinted.
  injection H as <-. exists i, j. repeat split; assumption.
Qed.

Lemma detect_loop_stores (ctxs : list (Sentence * Sentence)) :
  forall (k0 : nat) (st st' : detection),
    for_each loop_body (enumerate k0 ctxs) st = Ok st' ->
    length (forwards_predictions st) = k0 ->
    length (backwards_predictions st) = k0 ->
    length (forwards_predictions st') = k0 + length ctxs
    /\ length (backwards_predictions st') = k0 + length ctxs
    /\ (forall k x, nth_error (forwards_predictions st) k = Some x ->
                    nth_error (forwards_predictions st') k = Some x)
    /\ (forall k x, nth_error (backwards_predictions st) k = Some x ->
                    nth_error (backwards_predictions st') k = Some x)
    /\ (forall k prefix t suffix t',
           In (k, ((prefix, t), (suffix, t'))) (enumerate k0 ctxs) ->
           exists i j,
             index_of_max (forwards_predict prefix) = Ok i
             /\ index_of_max (backwards_predict suffix) = Ok j
             /\ nth_error (forwards_predictions st') k = Some (Some i)
             /\ nth_error (backwards_predictions st') k = Some (Some j)).
Proof.
  induction ctxs as [| [[prefix t] [suffix t']] ctxs IH];
    intros k0 st st' H Hf Hb.
  - simpl in H. injection H as <-. simpl.
    rewrite !Nat.add_0_r. repeat split; auto. intros ? ? ? ? ? [].
  - rewrite enumerate_cons in H. cbn [for_each] in H. bind_inv H as st1 Hst1.
    apply score_position_stores in Hst1.
    destruct Hst1 as (i & j & Hi & Hj & Ef & Eb).
    assert (Hf1 : length (forwards_predictions st1) = S k0)
      by (rewrite Ef, length_app; simpl; lia).
    assert (Hb1 : length (backwards_predictions st1) = S k0)
      by (rewrite Eb, length_app; simpl; lia).
    destruct (IH (S k0) st1 st' H Hf1 Hb1) as (L1 & L2 & K1 & K2 & Hall).
    cbn [length]. split; [lia |]. split; [lia |].
    split; [| split].
    + intros k x Hk. apply K1. rewrite Ef. now apply nth_error_snoc_keep.
    + intros k x Hk. apply K2. rewrite Eb. now apply nth_error_snoc_keep.
    + intros k p1 t1 s1 t1' Hin. rewrite enumerate_cons in Hin.
      destruct Hin as [E | Hin].
      * injection E as <- <- <- <- <-. exists i, j.
        split; [exact Hi |]. split; [exact Hj |]. split.
        -- apply K1. rewrite Ef, nth_error_app2, Hf, Nat.sub_diag by lia.
           reflexivity.
        -- apply K2. rewrite Eb, nth_error_app2, Hb, Nat.sub_diag by lia.
           reflexivity.
      * exact (Hall _ _ _ _ _ Hin).
Qed.
End LoopFacts.



(** X12: when the detection loop returns, each of its two lists of top
    predictions has [sentence_length] entries [None] followed by one id per
    position visited, and the entry at a position is the top prediction of
    the model for the window of that position. *)
Theorem top_predictions_are_aligned :
  forall (forwards_predict backwards_predict : list nat -> Np.ndarray)
         (tokens : list Corpus.Token) (file_vector : list nat)
         (st : Evaluate.detection),
    Evaluate.detect forwards_predict backwards_predict tokens file_vector
    = Py.Ok st ->
    length (Evaluate.forwards_predictions st)
    = Evaluate.sentence_length + length (Props.scored_positions file_vector)
    /\ length (Evaluate.backwards_predictions st)
       = Evaluate.sentence_length + length (Props.scored_positions file_vector)
    /\ (forall k, k < Evaluate.sentence_length ->
                  nth_error (Evaluate.forwards_predictions st) k = Some None
                  /\ nth_error (Evaluate.backwards_predictions st) k
                     = Some None)
    /\ (forall k prefix t suffix t',
           In (k, ((prefix, t), (suffix, t')))
              (Props.scored_positions file_vector) ->
           exists i j,
             Detect.index_of_max (forwards_predict prefix) = Py.Ok i
             /\ Detect.index_of_max (backwards_predict suffix) = Py.Ok j
             /\ nth_error (Evaluate.forwards_predictions st) k = Some (Some i)
             /\ nth_error (Evaluate.backwards_predictions st) k
                = Some (Some j)).
Proof.
  intros fp bp tokens V st H. unfold Evaluate.detect in H.
  destruct (@detect_loop_stores fp bp tokens V _ _ _ _ H)
    as (L1 & L2 & K1 & K2 & Hall);
    try apply repeat_length.
  assert (Hlen : length (Props.scored_positions V)
                 = length (Evaluate.contexts V)).
  { unfold Props.scored_positions, Py.enumerate.
    rewrite length_combine, length_seq. lia. }
  split; [now rewrite Hlen |]. split; [now rewrite Hlen |].
  split; [| exact Hall].
  intros k Hk.
  assert (Hnone : nth_error (repeat (@None nat) Evaluate.sentence_length) k
                  = Some None).
  { rewrite nth_error_repeat by exact Hk. reflexivity. }
  split; [apply K1 | apply K2]; exact Hnone.
Qed.

Lemma top_predictions_are_aligned_witness :
  Evaluate.detect Sample.forwards_predict Sample.backwards_predict
    Sample.mutated_tokens
    (VectorizeTokens.vectorize_tokens Sample.to_index Sample.mutated_tokens)
  = Py.Ok Sample.detected
  /\ length (Evaluate.forwards_predictions Sample.detected)
     = Evaluate.sentence_length
       + length (Props.scored_positions
                   (VectorizeTokens.vectorize_tokens Sample.to_index
                      Sample.mutated_tokens))
  /\ nth_error (Evaluate.forwards_predictions Sample.detected) 20
     = Some (Some 0).
Proof.
  assert (H : Evaluate.detect Sample.forwards_predict Sample.backwards_predict
                Sample.mutated_tokens
                (VectorizeTokens.vectorize_tokens Sample.to_index
                   Sample.mutated_tokens) = Py.Ok Sample.detected)
    by (vm_compute; reflexivity).
  split; [exact H |].
  pose proof (@top_predictions_are_aligned _ _ _ _ _ H) as (L1 & _ & _ & _).
  split; [exact L1 | vm_compute; reflexivity].
Defined.

(** ** [first_with_line_no] and the rows of the main loop *)

Lemma entry_line_Some (entries : list Evaluate.entry) (i l : nat) :
  MoreProps.entry_line entries i = Some l
  <-> exists e, Py.getitem entries i = Py.Ok e /\ Evaluate.line_of e = Py.Ok l.
Proof.
  unfold MoreProps.entry_line, Py.getitem. split.
  - destruct (nth_error entries i) as [[s | t] |]; try discriminate.
    intros H. injection H as <-. eexists. split; reflexivity.
  - intros (e & He & Hl).
    destruct (nth_error entries i) as [e' |]; [| discriminate].
    injection He as ->. destruct e as [s | t]; [discriminate |].
    simpl in Hl. now injection Hl as <-.
Qed.

Lemma first_with_line_no_from_Some (correct_line : nat)
    (entries : list Evaluate.entry) (disagreements : list Detect.Agreement) :
  forall rank r : nat,
    Evaluate.first_with_line_no_from rank disagreements correct_line entries
    = Py.Ok (Some r) ->
    exists n d,
      r = rank + n
      /\ nth_error disagreements n = Some d
      /\ MoreProps.entry_line entries (Detect.index d) = Some correct_line
      /\ forall m d',
           m < n -> nth_error disagreements m = Some d' ->
           exists l,
             MoreProps.entry_line entries (Detect.index d') = Some l
             /\ l <> correct_line.
Proof.
  induction disagreements as [| d ds IH]; intros rank r H; simpl in H.
  - discriminate.
  - bind_inv H as e He. bind_inv H as l Hl.
    assert (Hline : MoreProps.entry_line entries (Detect.index d) = Some l)
      by (apply entry_line_Some; eauto).
    destruct (l =? correct_line) eqn:E.
    + apply Nat.eqb_eq in E. subst l. injection H as <-.
      exists 0, d. split; [lia |]. split; [reflexivity |].
      split; [exact Hline |]. intros m d' Hm. lia.
    + apply Nat.eqb_neq in E.
      destruct (IH _ _ H) as (n & d0 & -> & Hn & Hd0 & Hbefore).
      exists (S n), d0. split; [lia |]. split; [exact Hn |].
      split; [exact Hd0 |].
      intros [| m] d' Hm Hd'.
      * simpl in Hd'. injection Hd' as <-. eauto.
      * simpl in Hd'. apply (Hbefore m d'); [lia | exact Hd'].
Qed.

Lemma first_with_line_no_from_None (correct_line : nat)
    (entries : list Evaluate.entry) (disagreements : list Detect.Agreement) :
  forall rank : nat,
    Evaluate.first_with_line_no_from rank disagreements correct_line entries
    = Py.Ok None
    <-> Forall (fun d =>
                  exists l,
                    MoreProps.entry_line entries (Detect.index d) = Some l
                    /\ l <> correct_line) disagreements.
Proof.
  induction disagreements as [| d ds IH]; intros rank; simpl.
  - split; [constructor | reflexivity].
  - split.
    + intros H. bind_inv H as e He. bind_inv H as l Hl.
      destruct (l =? correct_line) eqn:E; [discriminate |].
      apply Nat.eqb_neq in E. constructor.
      * exists l. split; [apply entry_line_Some; eauto | exact E].
      * now apply (IH (S rank)).
    + intros H. inversion H as [| ? ? (l & Hl & Hne) Hds]; subst.
      apply entry_line_Some in Hl. destruct Hl as (e & He & Hl).
      rewrite He. cbn [Py.bind]. rewrite Hl. cbn [Py.bind].
      apply Nat.eqb_neq in Hne. rewrite Hne. now apply IH.
Qed.

(** X13: the rank [first_with_line_no] returns is 1-based and within the
    list; the position at that rank holds a token of the correct line, and
    every position before it holds a token of another line. *)
Theorem first_with_line_no_is_least_rank :
  forall (disagreements : list Detect.Agreement) (correct_line : nat)
         (entries : list Evaluate.entry) (r : nat),
    Evaluate.first_with_line_no disagreements correct_line entries
    = Py.Ok (Some r) ->
    1 <= r <= length disagreements
    /\ exists d,
         nth_error disagreements (r - 1) = Some d
         /\ MoreProps.entry_line entries (Detect.index d) = Some correct_line
         /\ forall m d',
              m < r - 1 -> nth_error disagreements m = Some d' ->
              exists l,
                MoreProps.entry_line entries (Detect.index d') = Some l
                /\ l <> correct_line.
Proof.
  intros ds cl entries r H. unfold Evaluate.first_with_line_no in H.
  destruct (first_with_line_no_from_Some _ _ _ _ H)
    as (n & d & -> & Hn & Hd & Hbefore).
  assert (Hlt : n < length ds) by (apply nth_error_Some; congruence).
  replace (1 + n - 1) with n by lia.
  split; [lia |]. exists d. repeat split; assumption.
Qed.

Lemma first_with_line_no_is_least_rank_witness :
  Evaluate.first_with_line_no
    [Detect.mkAgreement (-2 # 1) 20; Detect.mkAgreement (-1 # 2) 7;
     Detect.mkAgreement 0 8] 7 Sample.entries = Py.Ok (Some 2)
  /\ 1 <= 2 <= 3
  /\ exists d,
       nth_error [Detect.mkAgreement (-2 # 1) 20; Detect.mkAgreement (-1 # 2) 7;
                  Detect.mkAgreement 0 8] (2 - 1) = Some d
       /\ MoreProps.entry_line Sample.entries (Detect.index d) = Some 7
       /\ forall m d',
            m < 2 - 1 ->
            nth_error [Detect.mkAgreement (-2 # 1) 20;
                       Detect.mkAgreement (-1 # 2) 7;
                       Detect.mkAgreement 0 8] m = Some d' ->
            exists l,
              MoreProps.entry_line Sample.entries (Detect.index d') = Some l
              /\ l <> 7.
Proof.
  assert (H : Evaluate.first_with_line_no
                [Detect.mkAgreement (-2 # 1) 20; Detect.mkAgreement (-1 # 2) 7;
                 Detect.mkAgreement 0 8] 7 Sample.entries = Py.Ok (Some 2))
    by (vm_compute; reflexivity).
  split; [exact H |].
  exact (@first_with_line_no_is_least_rank _ _ _ _ H).
Defined.

(** X14: [first_with_line_no] returns [None] exactly when every position of
    the list holds a token and none of these tokens is on the correct
    line. *)
Theorem first_with_line_no_finds_nothing :
  forall (disagreements : list Detect.Agreement) (correct_line : nat)
         (entries : list Evaluate.entry),
    Evaluate.first_with_line_no disagreements correct_line entries
    = Py.Ok None
    <-> Forall (fun d =>
                  exists l,
                    MoreProps.entry_line entries (Detect.index d) = Some l
                    /\ l <> correct_line) disagreements.
Proof.
  intros. apply first_with_line_no_from_None.
Qed.

Lemma entries_token (tokens : list Corpus.Token) (first final : string)
    (i : nat) (t : Corpus.Token) :
  nth_error (Evaluate.Sentinel first :: map Evaluate.Tok tokens
               ++ [Evaluate.Sentinel final]) i = Some (Evaluate.Tok t)
  <-> 1 <= i /\ nth_error tokens (i - 1) = Some t.
Proof.
  destruct i as [| m]; simpl.
  - split; [discriminate | lia].
  - rewrite Nat.sub_0_r.
    destruct (Nat.lt_ge_cases m (length tokens)) as [Hm | Hm].
    + rewrite nth_error_app1 by (now rewrite length_map).
      rewrite nth_error_map.
      destruct (nth_error tokens m) as [t' |] eqn:E; simpl.
      * split; [intros H; injection H as ->; split; [lia | reflexivity]
               | intros [_ H]; now injection H as ->].
      * apply nth_error_None in E. lia.
    + rewrite nth_error_app2 by (now rewrite length_map).
      rewrite length_map.
      assert (Hnone : nth_error tokens m = None) by (now apply nth_error_None).
      rewrite Hnone.
      destruct (m - length tokens) as [| [| n]]; simpl;
        split; try discriminate; intros [_ H]; discriminate.
Qed.

(** X15: a mutation located on one of the two sentinels, position 0 or the
    position after the last token, ends the trial in an [AttributeError]:
    the entry there is a string, which has no line; a location beyond them
    ends it in an [IndexError]. *)
Theorem mutation_on_sentinel_raises :
  forall (forwards_predict backwards_predict : list nat -> Np.ndarray)
         (check_syntax : list Corpus.Token -> bool)
         (to_index : string -> nat) (id_to_token : nat -> Corpus.Token)
         (fold_no : nat) (file_hash : string) (vector : list nat)
         (tokens mutated_tokens : list Corpus.Token)
         (mutation : Mutate.Mutation) (entries : list Evaluate.entry),
    Evaluate.load vector tokens = Py.Ok entries ->
    (Mutate.location mutation = 0
     \/ Mutate.location mutation = length tokens + 1 ->
     Evaluate.trial forwards_predict backwards_predict check_syntax to_index
       id_to_token fold_no file_hash vector tokens mutation mutated_tokens
     = Py.Raise Py.AttributeError)
    /\ (length tokens + 1 < Mutate.location mutation ->
        Evaluate.trial forwards_predict backwards_predict check_syntax
          to_index id_to_token fold_no file_hash vector tokens mutation
          mutated_tokens
        = Py.Raise Py.IndexError).
Proof.
  intros fp bp check to_index id_to_token fold_no file_hash vector tokens
         mutated_tokens mutation entries Hload.
  unfold Evaluate.trial. rewrite Hload. cbn [Py.bind].
  apply load_Ok_iff in Hload. destruct Hload as (_ & _ & ->).
  unfold Py.getitem. split.
  - intros [-> | ->]; [reflexivity |].
    rewrite Nat.add_1_r. cbn [nth_error].
    rewrite nth_error_app2 by (now rewrite length_map).
    rewrite length_map, Nat.sub_diag. reflexivity.
  - intros Hloc.
    destruct (nth_error _ (Mutate.location mutation)) as [e |] eqn:E;
      [| reflexivity].
    exfalso.
    assert (Hin : Mutate.location mutation
                  < length (Evaluate.Sentinel "start"
                              :: map Evaluate.Tok tokens
                              ++ [Evaluate.Sentinel "end"]))
      by (apply nth_error_Some; congruence).
    cbn [length] in Hin. rewrite length_app, length_map in Hin.
    simpl in Hin. lia.
Qed.

Lemma mutation_on_sentinel_raises_witness :
  Evaluate.load
    (VectorizeTokens.vectorize_tokens Sample.to_index Sample.tokens)
    Sample.tokens = Py.Ok Sample.entries
  /\ Evaluate.trial Sample.forwards_predict Sample.backwards_predict
       Sample.accepts_nothing Sample.to_index Sample.id_to_token
       3 "0a1b2c"
       (VectorizeTokens.vectorize_tokens Sample.to_index Sample.tokens)
       Sample.tokens (Mutate.mkMutation Detect.insert 0 (Some 7))
       Sample.tokens
     = Py.Raise Py.AttributeError.
Proof.
  assert (Hload : Evaluate.load
            (VectorizeTokens.vectorize_tokens Sample.to_index Sample.tokens)
            Sample.tokens = Py.Ok Sample.entries)
    by (vm_compute; reflexivity).
  split; [exact Hload |].
  exact (proj1 (@mutation_on_sentinel_raises
                  Sample.forwards_predict Sample.backwards_predict
                  Sample.accepts_nothing Sample.to_index Sample.id_to_token
                  3 "0a1b2c"%string
                  (VectorizeTokens.vectorize_tokens Sample.to_index
                     Sample.tokens)
                  Sample.tokens Sample.tokens
                  (Mutate.mkMutation Detect.insert 0 (Some 7))
                  Sample.entries Hload)
               (or_introl eq_refl)).
Defined.

Lemma trial_Ok (forwards_predict backwards_predict : list nat -> Np.ndarray)
    (check_syntax : list Corpus.Token -> bool) (to_index : string -> nat)
    (id_to_token : nat -> Corpus.Token) (fold_no : nat) (file_hash : string)
    (vector : list nat) (tokens mutated_tokens : list Corpus.Token)
    (mutation : Mutate.Mutation) (row : Evaluate.Row) :
  Evaluate.trial forwards_predict backwards_predict check_syntax to_index
    id_to_token fold_no file_hash vector tokens mutation mutated_tokens
  = Py.Ok row ->
  exists entries e correct_line ranked fix_,
    Evaluate.load vector tokens = Py.Ok entries
    /\ Py.getitem entries (Mutate.location mutation) = Py.Ok e
    /\ Evaluate.line_of e = Py.Ok correct_line
    /\ Evaluate.rank_and_fix forwards_predict backwards_predict check_syntax
         to_index id_to_token mutated_tokens = Py.Ok (ranked, fix_)
    /\ Evaluate.record fold_no file_hash mutation entries correct_line
         ranked fix_ = Py.Ok row.
Proof.
  unfold Evaluate.trial. intros H.
  bind_inv H as entries Hload. bind_inv H as e He.
  bind_inv H as correct_line Hline. bind_inv H as ranked Hranked.
  destruct ranked as [ranked fix_].
  exists entries, e, correct_line, ranked, fix_. repeat split; assumption.
Qed.

Lemma record_Ok (fold_no : nat) (file_hash : string)
    (mutation : Mutate.Mutation) (entries : list Evaluate.entry)
    (correct_line : nat) (ranked : list Detect.Agreement)
    (fix_ : option Detect.Fix) (row : Evaluate.Row) :
  Evaluate.record fold_no file_hash mutation entries correct_line ranked fix_
  = Py.Ok row ->
  exists top rest e top_line r,
    ranked = top :: rest
    /\ Py.getitem entries (Detect.index top) = Py.Ok e
    /\ Evaluate.line_of e = Py.Ok top_line
    /\ Evaluate.first_with_line_no ranked correct_line entries = Py.Ok r
    /\ row = Evaluate.mkRow fold_no file_hash
               (Mutate.name mutation) (Mutate.token mutation)
               (Mutate.location mutation) correct_line top_line r
               (match fix_ with Some _ => true | None => false end)
               (match fix_ with
                | Some f => Some (Detect.kind f)
                | None => None
                end)
               (match fix_ with
                | Some f => Some (Detect.location f)
                | None => None
                end)
               (match fix_ with Some f => Detect.token f | None => None end)
               None.
Proof.
  unfold Evaluate.record. intros H.
  bind_inv H as top Htop. bind_inv H as e He.
  bind_inv H as top_line Hline. bind_inv H as r Hr.
  injection H as <-.
  destruct ranked as [| top' rest]; [discriminate |].
  injection Htop as ->.
  exists top, rest, e, top_line, r. repeat split; assumption.
Qed.

(** X16: a row the trial writes copies the fold, the file and the three
    fields of the mutation, leaves [same_fix] empty, and was written for a
    vector that begins with 0 and ends with 99; its correct line is the
    line of the token before the position of the mutation in the token
    list; [fixed] is true exactly when the kind and the position of a fix
    are filled, and without a fix there is no fix token. *)
Theorem written_row_is_consistent :
  forall (forwards_predict backwards_predict : list nat -> Np.ndarray)
         (check_syntax : list Corpus.Token -> bool)
         (to_index : string -> nat) (id_to_token : nat -> Corpus.Token)
         (fold_no : nat) (file_hash : string) (vector : list nat)
         (tokens mutated_tokens : list Corpus.Token)
         (mutation : Mutate.Mutation) (row : Evaluate.Row),
    Evaluate.trial forwards_predict backwards_predict check_syntax to_index
      id_to_token fold_no file_hash vector tokens mutation mutated_tokens
    = Py.Ok row ->
    Evaluate.fold row = fold_no
    /\ Evaluate.file row = file_hash
    /\ Evaluate.mkind row = Mutate.name mutation
    /\ Evaluate.mtoken row = Mutate.token mutation
    /\ Evaluate.mpos row = Mutate.location mutation
    /\ Evaluate.same_fix row = None
    /\ nth_error vector 0 = Some 0
    /\ Py.getlast vector = Py.Ok 99
    /\ (exists t,
           1 <= Evaluate.mpos row
           /\ nth_error tokens (Evaluate.mpos row - 1) = Some t
           /\ Evaluate.correct_line row = Corpus.line t)
    /\ (Evaluate.fixed row = true <-> Evaluate.fkind row <> None)
    /\ (Evaluate.fixed row = true <-> Evaluate.fpos row <> None)
    /\ (Evaluate.fixed row = false -> Evaluate.ftoken row = None).
Proof.
  intros fp bp check to_index id_to_token fold_no file_hash vector tokens
         mutated_tokens mutation row H.
  destruct (trial_Ok _ _ _ _ _ _ _ _ _ _ _ H)
    as (entries & e & cl & ranked & fix_ & Hload & He & Hcl & _ & Hrec).
  destruct (record_Ok _ _ _ _ _ _ _ Hrec)
    as (top & rest & e' & top_line & r & _ & _ & _ & _ & ->).
  apply load_Ok_iff in Hload. destruct Hload as (H0 & H99 & ->).
  cbn [Evaluate.fold Evaluate.file Evaluate.mkind Evaluate.mtoken
       Evaluate.mpos Evaluate.same_fix Evaluate.correct_line Evaluate.fixed
       Evaluate.fkind Evaluate.fpos Evaluate.ftoken].
  repeat (split; [solve [reflexivity | assumption] |]).
  split.
  - destruct e as [s | t]; [discriminate |].
    simpl in Hcl. injection Hcl as <-.
    apply getitem_Ok, entries_token in He. destruct He as [Hpos Ht].
    exists t. repeat split; assumption.
  - destruct fix_ as [f |]; repeat split; try discriminate; try congruence;
      intros; congruence.
Qed.

Lemma written_row_is_consistent_witness :
  exists row,
    Evaluate.trial Sample.forwards_predict Sample.backwards_predict
      Sample.accepts_nothing Sample.to_index Sample.id_to_token
      3 "0a1b2c"
      (VectorizeTokens.vectorize_tokens Sample.to_index Sample.tokens)
      Sample.tokens Sample.mutation Sample.mutated_tokens = Py.Ok row
    /\ Evaluate.mpos row = 5
    /\ exists t,
         1 <= Evaluate.mpos row
         /\ nth_error Sample.tokens (Evaluate.mpos row - 1) = Some t
         /\ Evaluate.correct_line row = Corpus.line t.
Proof.
  assert (H : exists row,
             Evaluate.trial Sample.forwards_predict Sample.backwards_predict
               Sample.accepts_nothing Sample.to_index Sample.id_to_token
               3 "0a1b2c"%string
               (VectorizeTokens.vectorize_tokens Sample.to_index Sample.tokens)
               Sample.tokens Sample.mutation Sample.mutated_tokens
             = Py.Ok row).
  { eexists. vm_compute. reflexivity. }
  destruct H as [row H]. exists row. split; [exact H |].
  pose proof (@written_row_is_consistent _ _ _ _ _ _ _ _ _ _ _ _ H)
    as (_ & _ & _ & _ & Hpos & _ & _ & _ & Ht & _).
  split; [exact Hpos | exact Ht].
Defined.

Lemma first_with_line_no_from_ge (correct_line : nat)
    (entries : list Evaluate.entry) (disagreements : list Detect.Agreement)
    (rank r : nat) :
  Evaluate.first_with_line_no_from rank disagreements correct_line entries
  = Py.Ok (Some r) ->
  rank <= r.
Proof.
  intros H. destruct (first_with_line_no_from_Some _ _ _ _ H)
    as (n & d & -> & _). lia.
Qed.

(** X17: in a row the trial writes, the rank of the correct line is 1
    exactly when the line of the top-ranked position is the correct line,
    and a rank is never 0. *)
Theorem correct_line_ranked_first_iff_top_line :
  forall (forwards_predict backwards_predict : list nat -> Np.ndarray)
         (check_syntax : list Corpus.Token -> bool)
         (to_index : string -> nat) (id_to_token : nat -> Corpus.Token)
         (fold_no : nat) (file_hash : string) (vector : list nat)
         (tokens mutated_tokens : list Corpus.Token)
         (mutation : Mutate.Mutation) (row : Evaluate.Row),
    Evaluate.trial forwards_predict backwards_predict check_syntax to_index
      id_to_token fold_no file_hash vector tokens mutation mutated_tokens
    = Py.Ok row ->
    (Evaluate.rank_correct_line row = Some 1
     <-> Evaluate.line_of_top_rank row = Evaluate.correct_line row)
    /\ (forall r, Evaluate.rank_correct_line row = Some r -> 1 <= r).
Proof.
  intros fp bp check to_index id_to_token fold_no file_hash vector tokens
         mutated_tokens mutation row H.
  destruct (trial_Ok _ _ _ _ _ _ _ _ _ _ _ H)
    as (entries & e & cl & ranked & fix_ & _ & _ & _ & _ & Hrec).
  destruct (record_Ok _ _ _ _ _ _ _ Hrec)
    as (top & rest & e' & top_line & r & -> & He' & Hl' & Hr & ->).
  cbn [Evaluate.rank_correct_line Evaluate.line_of_top_rank
       Evaluate.correct_line].
  unfold Evaluate.first_with_line_no in Hr.
  pose proof Hr as Hr0.
  cbn [Evaluate.first_with_line_no_from] in Hr.
  rewrite He' in Hr. cbn [Py.bind] in Hr. rewrite Hl' in Hr.
  cbn [Py.bind] in Hr.
  split.
  - destruct (top_line =? cl) eqn:E.
    + apply Nat.eqb_eq in E. injection Hr as <-. tauto.
    + apply Nat.eqb_neq in E. split; [| intros; congruence].
      intros ->. apply first_with_line_no_from_ge in Hr. lia.
  - intros r' ->. now apply first_with_line_no_from_ge in Hr0.
Qed.

Lemma correct_line_ranked_first_iff_top_line_witness :
  exists row,
    Evaluate.trial Sample.forwards_predict Sample.backwards_predict
      Sample.accepts_nothing Sample.to_index Sample.id_to_token
      3 "0a1b2c"
      (VectorizeTokens.vectorize_tokens Sample.to_index Sample.tokens)
      Sample.tokens (Mutate.mkMutation Detect.remove 20 None)
      Sample.mutated_tokens = Py.Ok row
    /\ Evaluate.rank_correct_line row = Some 1
    /\ Evaluate.line_of_top_rank row = Evaluate.correct_line row.
Proof.
  assert (H : exists row,
             Evaluate.trial Sample.forwards_predict Sample.backwards_predict
               Sample.accepts_nothing Sample.to_index Sample.id_to_token
               3 "0a1b2c"%string
               (VectorizeTokens.vectorize_tokens Sample.to_index Sample.tokens)
               Sample.tokens (Mutate.mkMutation Detect.remove 20 None)
               Sample.mutated_tokens = Py.Ok row
             /\ Evaluate.rank_correct_line row = Some 1).
  { eexists. split; vm_compute; reflexivity. }
  destruct H as (row & H & H1). exists row. split; [exact H |].
  split; [exact H1 |].
  exact (proj1 (proj1 (@correct_line_ranked_first_iff_top_line
                         _ _ _ _ _ _ _ _ _ _ _ _ H)) H1).
Defined.

(** ** The fold table *)

Lemma dict_get_set (d : Folds.dict) (k k' : string) (v : nat) :
  Folds.dict_get (Folds.dict_set d k v) k'
  = if String.eqb k k' then Some v else Folds.dict_get d k'.
Proof.
  induction d as [| [k1 v1] d IH]; cbn [Folds.dict_set Folds.dict_get].
  - reflexivity.
  - destruct (String.eqb k1 k) eqn:E1; cbn [Folds.dict_get].
    + apply String.eqb_eq in E1. subst k1.
      destruct (String.eqb k k'); reflexivity.
    + destruct (String.eqb k1 k') eqn:E2.
      * apply String.eqb_eq in E2. subst k1.
        rewrite String.eqb_sym, E1. reflexivity.
      * exact IH.
Qed.

Lemma populate_fold_get (fold : nat) (hash_file : list string)
    (FOLDS : Folds.dict) (h : string) :
  Folds.dict_get (Folds.populate_fold fold hash_file FOLDS) h
  = if existsb (fun l => String.eqb (Text.strip l) h) hash_file
    then Some fold
    else Folds.dict_get FOLDS h.
Proof.
  unfold Folds.populate_fold. revert FOLDS.
  induction hash_file as [| l ls IH]; intros FOLDS; cbn [fold_left existsb].
  - reflexivity.
  - rewrite IH, dict_get_set.
    destruct (String.eqb (Text.strip l) h); cbn [orb]; [| reflexivity].
    destruct (existsb _ ls); reflexivity.
Qed.

Lemma populate_from_Done (files : string -> option (list string))
    (folds : list nat) (FOLDS FOLDS' : Folds.dict) (h : string) :
  Folds.populate_from folds files FOLDS = (FOLDS', Folds.Done) ->
  Forall (fun fold => files (Folds.hash_file_name fold) <> None) folds
  /\ Folds.dict_get FOLDS' h
     = fold_left (fun found fold =>
                    if MoreProps.listed files fold h then Some fold else found)
                 folds (Folds.dict_get FOLDS h).
Proof.
  revert FOLDS. induction folds as [| fold folds IH]; intros FOLDS H;
    cbn [Folds.populate_from] in H.
  - injection H as <-. split; [constructor | reflexivity].
  - destruct (files (Folds.hash_file_name fold)) as [hash_file |] eqn:E;
      [| discriminate].
    destruct (IH _ H) as [Hall Hget]. split.
    + constructor; [congruence | exact Hall].
    + rewrite Hget, populate_fold_get. cbn [fold_left].
      f_equal. unfold MoreProps.listed. rewrite E. reflexivity.
Qed.

Lemma last_listing_fold (files : string -> option (list string)) (h : string)
    (folds : list nat) (found : option nat) :
  let result :=
    fold_left (fun found fold =>
                 if MoreProps.listed files fold h then Some fold else found)
              folds found in
  (Forall (fun fold => MoreProps.listed files fold h = false) folds ->
   result = found)
  /\ (forall before fold after,
         folds = before ++ fold :: after ->
         MoreProps.listed files fold h = true ->
         Forall (fun fold' => MoreProps.listed files fold' h = false) after ->
         result = Some fold).
Proof.
  cbv zeta. revert found. induction folds as [| f folds IH]; intros found;
    cbn [fold_left].
  - split; [reflexivity |]. intros [| ? ?] ? ? E; discriminate.
  - split.
    + intros Hall. inversion Hall as [| ? ? Hf Hrest]; subst.
      rewrite Hf. now apply IH.
    + intros [| b before] fold after E Hl Hafter; injection E as -> ->.
      * rewrite Hl. now apply IH.
      * eapply IH; eauto.
Qed.

(** X18: when [populate_folds] returns, all five hash files were found; a
    hash that no file lists keeps the entry it had, and a hash that some
    file lists is mapped to the highest fold whose file lists it, so a hash
    listed for two folds silently keeps the later one. *)
Theorem populate_folds_keeps_the_last_fold :
  forall (files : string -> option (list string))
         (FOLDS FOLDS' : Folds.dict),
    Folds.populate_folds files FOLDS = (FOLDS', Folds.Done) ->
    (forall fold, fold < 5 -> files (Folds.hash_file_name fold) <> None)
    /\ forall h,
         ((forall fold, fold < 5 -> MoreProps.listed files fold h = false) ->
          Folds.dict_get FOLDS' h = Folds.dict_get FOLDS h)
         /\ (forall fold,
                fold < 5 ->
                MoreProps.listed files fold h = true ->
                (forall fold', fold < fold' -> fold' < 5 ->
                               MoreProps.listed files fold' h = false) ->
                Folds.dict_get FOLDS' h = Some fold).
Proof.
  intros files FOLDS FOLDS' H. unfold Folds.populate_folds in H.
  split.
  - destruct (populate_from_Done files _ _ EmptyString H) as [Hall _].
    rewrite Forall_forall in Hall. intros fold Hlt. apply Hall.
    change [0; 1; 2; 3; 4] with (seq 0 5). apply in_seq. lia.
  - intros h. destruct (populate_from_Done files _ _ h H) as [_ ->].
    change [0; 1; 2; 3; 4] with (seq 0 5).
    destruct (last_listing_fold files h (seq 0 5) (Folds.dict_get FOLDS h))
      as [Hnone Hsome].
    split.
    + intros Hno. apply Hnone. apply Forall_forall. intros fold Hin.
      apply in_seq in Hin. apply Hno. lia.
    + intros fold Hlt Hl Hlater.
      apply (Hsome (seq 0 fold) fold (seq (S fold) (5 - S fold))).
      * replace 5 with (fold + S (5 - S fold)) at 1 by lia.
        rewrite seq_app. reflexivity.
      * exact Hl.
      * apply Forall_forall. intros fold' Hin. apply in_seq in Hin.
        apply Hlater; lia.
Qed.

Lemma populate_folds_keeps_the_last_fold_witness :
  exists FOLDS',
    Folds.populate_folds MoreSample.hash_files [] = (FOLDS', Folds.Done)
    /\ MoreProps.listed MoreSample.hash_files 0 "3d4e5f" = true
    /\ Folds.dict_get FOLDS' "3d4e5f" = Some 1.
Proof.
  assert (H : exists FOLDS',
             Folds.populate_folds MoreSample.hash_files []
             = (FOLDS', Folds.Done)).
  { eexists. vm_compute. reflexivity. }
  destruct H as [FOLDS' H]. exists FOLDS'.
  split; [exact H |]. split; [vm_compute; reflexivity |].
  apply (proj2 (proj2 (@populate_folds_keeps_the_last_fold _ _ _ H)
                      "3d4e5f"%string) 1).
  - lia.
  - vm_compute. reflexivity.
  - intros fold' H1 H2.
    assert (E : fold' = 2 \/ fold' = 3 \/ fold' = 4) by lia.
    destruct E as [-> | [-> | ->]]; vm_compute; reflexivity.
Defined.

Lemma populate_from_app (files : string -> option (list string))
    (before rest : list nat) (FOLDS : Folds.dict) :
  Folds.populate_from (before ++ rest) files FOLDS
  = match Folds.populate_from before files FOLDS with
    | (FOLDS', Folds.Done) => Folds.populate_from rest files FOLDS'
    | stopped => stopped
    end.
Proof.
  revert FOLDS. induction before as [| fold before IH]; intros FOLDS;
    cbn [app Folds.populate_from].
  - reflexivity.
  - destruct (files (Folds.hash_file_name fold)); [apply IH | reflexivity].
Qed.

Lemma populate_from_all_found (files : string -> option (list string))
    (folds : list nat) (FOLDS : Folds.dict) :
  Forall (fun fold => files (Folds.hash_file_name fold) <> None) folds ->
  exists FOLDS', Folds.populate_from folds files FOLDS = (FOLDS', Folds.Done).
Proof.
  revert FOLDS. induction folds as [| fold folds IH]; intros FOLDS Hall;
    cbn [Folds.populate_from].
  - now exists FOLDS.
  - inversion Hall as [| ? ? Hf Hrest]; subst.
    destruct (files (Folds.hash_file_name fold)); [| congruence].
    now apply IH.
Qed.

(** X19: when the hash file of fold [k] is the first one missing,
    [populate_folds] stops with [FileNotFoundError] for that file, and the
    table is left with what the files of the folds below [k] have put in
    it: a hash that none of them lists keeps its entry, a hash that one of
    them lists is mapped to the highest such fold below [k]. *)
Theorem populate_folds_stops_at_missing_file :
  forall (files : string -> option (list string)) (FOLDS : Folds.dict)
         (k : nat),
    k < 5 ->
    (forall j, j < k -> files (Folds.hash_file_name j) <> None) ->
    files (Folds.hash_file_name k) = None ->
    snd (Folds.populate_folds files FOLDS)
    = Folds.FileNotFoundError (Folds.hash_file_name k)
    /\ forall h,
         ((forall j, j < k -> MoreProps.listed files j h = false) ->
          Folds.dict_get (fst (Folds.populate_folds files FOLDS)) h
          = Folds.dict_get FOLDS h)
         /\ (forall j,
                j < k ->
                MoreProps.listed files j h = true ->
                (forall j', j < j' -> j' < k ->
                            MoreProps.listed files j' h = false) ->
                Folds.dict_get (fst (Folds.populate_folds files FOLDS)) h
                = Some j).
Proof.
  intros files FOLDS k Hk Hfound Hmissing.
  unfold Folds.populate_folds.
  change [0; 1; 2; 3; 4] with (seq 0 5).
  replace 5 with (k + S (5 - S k)) by lia.
  rewrite seq_app, populate_from_app. cbn [seq Nat.add].
  destruct (@populate_from_all_found files (seq 0 k) FOLDS) as [FOLDS' H].
  { apply Forall_forall. intros j Hj. apply in_seq in Hj. apply Hfound. lia. }
  rewrite H. cbn [Folds.populate_from]. rewrite Hmissing. cbn [fst snd].
  split; [reflexivity |].
  intros h. destruct (populate_from_Done files _ _ h H) as [_ ->].
  destruct (last_listing_fold files h (seq 0 k) (Folds.dict_get FOLDS h))
    as [Hnone Hsome].
  split.
  - intros Hno. apply Hnone. apply Forall_forall. intros j Hj.
    apply in_seq in Hj. apply Hno. lia.
  - intros j Hj Hl Hlater.
    apply (Hsome (seq 0 j) j (seq (S j) (k - S j))).
    + replace k with (j + S (k - S j)) at 1 by lia.
      rewrite seq_app. reflexivity.
    + exact Hl.
    + apply Forall_forall. intros j' Hin. apply in_seq in Hin.
      apply Hlater; lia.
Qed.

Lemma populate_folds_stops_at_missing_file_witness :
  snd (Folds.populate_folds MoreSample.hash_files_without_2 [])
  = Folds.FileNotFoundError "test_set_hashes.2"
  /\ Folds.dict_get
       (fst (Folds.populate_folds MoreSample.hash_files_without_2 []))
       "3d4e5f"
     = Some 1.
Proof.
  assert (Hk : 2 < 5) by lia.
  assert (Hfound : forall j, j < 2 ->
             MoreSample.hash_files_without_2 (Folds.hash_file_name j)
             <> None).
  { intros j Hj. assert (E : j = 0 \/ j = 1) by lia.
    destruct E as [-> | ->]; vm_compute; discriminate. }
  assert (Hmissing :
            MoreSample.hash_files_without_2 (Folds.hash_file_name 2) = None).
  { vm_compute. reflexivity. }
  pose proof (@populate_folds_stops_at_missing_file
                MoreSample.hash_files_without_2 [] 2 Hk Hfound Hmissing)
    as [Hsnd Hget].
  split; [exact Hsnd |].
  apply (proj2 (Hget "3d4e5f"%string) 1).
  - lia.
  - vm_compute. reflexivity.
  - intros j' H1 H2. lia.
Defined.

(** ** The names of the models *)

Lemma list_ascii_of_string_append (s t : string) :
  list_ascii_of_string (s ++ t)
  = list_ascii_of_string s ++ list_ascii_of_string t.
Proof.
  induction s as [| c s IH]; cbn [String.append list_ascii_of_string app].
  - reflexivity.
  - now rewrite IH.
Qed.

Lemma append_inv_tail (s s' t : string) :
  (s ++ t)%string = (s' ++ t)%string -> s = s'.
Proof.
  intros H. apply (f_equal list_ascii_of_string) in H.
  rewrite !list_ascii_of_string_append in H. apply app_inv_tail in H.
  rewrite <- (string_of_list_ascii_of_string s),
          <- (string_of_list_ascii_of_string s').
  now rewrite H.
Qed.

Lemma to_uint_not_Nil (n : nat) : Nat.to_uint n <> Decimal.Nil.
Proof.
  intros H. pose proof (DecimalNat.Unsigned.of_to n) as E.
  rewrite H in E. cbn in E. subst n. discriminate H.
Qed.

Lemma str_inj (a b : nat) : Text.str a = Text.str b -> a = b.
Proof.
  unfold Text.str. intros H.
  apply (f_equal DecimalString.NilZero.uint_of_string) in H.
  rewrite !DecimalString.NilZero.usu in H by apply to_uint_not_Nil.
  injection H as H. now apply DecimalNat.Unsigned.to_uint_inj.
Qed.

(** X20: the names of the models [__init__] asks for differ between the
    two directions whatever the folds, and within a direction name the
    fold: two folds give the same name only when they are the same fold. *)
Theorem model_names_tell_direction_and_fold :
  forall fold_no fold_no' : nat,
    Recipes.forwards_name fold_no <> Recipes.backwards_name fold_no'
    /\ (Recipes.forwards_name fold_no = Recipes.forwards_name fold_no'
        <-> fold_no = fold_no')
    /\ (Recipes.backwards_name fold_no = Recipes.backwards_name fold_no'
        <-> fold_no = fold_no').
Proof.
  intros a b.
  unfold Recipes.forwards_name, Recipes.backwards_name, Recipes.name_format.
  cbn [String.append].
  split; [intros H; discriminate H |].
  split; (split; [| now intros ->]); intros H; injection H as H;
    now apply append_inv_tail, str_inj in H.
Qed.

(** ** The result sink *)

(** X21: [Results.write] never raises the [ValueError] of a key outside
    the field names: it writes thirteen cells, one per field name in the
    order of [FIELDS] (so [mpos] before [mtoken], not the order of the
    call), each the value passed under that name and none the fill-in for a
    missing key; the field names are pairwise distinct. *)
Theorem write_fills_every_column :
  forall r : Evaluate.Row,
    NoDup ResultsCsv.FIELDS
    /\ exists cells,
         ResultsCsv.write r = Py.Ok cells
         /\ length cells = 13
         /\ length ResultsCsv.FIELDS = 13
         /\ (forall i name,
                nth_error ResultsCsv.FIELDS i = Some name ->
                exists c,
                  In (name, c) (ResultsCsv.kwargs r)
                  /\ nth_error cells i = Some c)
         /\ nth_error cells 3 = Some (ResultsCsv.Int (Evaluate.mpos r))
         /\ nth_error cells 4
            = Some (ResultsCsv.of_option ResultsCsv.Int (Evaluate.mtoken r)).
Proof.
  intros r. split.
  - assert (E : ResultsCsv.FIELDS
                = ["fold"; "file"; "mkind"; "mpos"; "mtoken"; "correct_line";
                   "line_of_top_rank"; "rank_correct_line"; "fixed"; "fkind";
                   "fpos"; "ftoken"; "same_fix"]%string)
      by (vm_compute; reflexivity).
    rewrite E.
    repeat (constructor;
            [cbn [In]; intros H;
             repeat (destruct H as [H | H]; [discriminate H |]); exact H |]).
    constructor.
  - eexists. split; [vm_compute; reflexivity |].
    split; [reflexivity |]. split; [vm_compute; reflexivity |].
    split; [| split; reflexivity].
    intros i name H.
    do 13 (destruct i as [| i];
           [vm_compute in H; injection H as <-; eexists;
            split; [| reflexivity]; cbn; tauto |]).
    vm_compute in H. destruct i; discriminate H.
Qed.

(** ** What LOAD does not compare *)

(** X22: LOAD never compares the vector with the tokens: the assertion of
    line 257 compares the length of the padded tuple with itself.  A vector
    that LOAD accepts with one token sequence is accepted with every token
    sequence, of any length, and the tuple returned has two entries more
    than that sequence, whatever the length of the vector. *)
Theorem load_accepts_misaligned_lengths :
  forall (vector : list nat) (tokens tokens' : list Corpus.Token)
         (entries : list Evaluate.entry),
    Evaluate.load vector tokens = Py.Ok entries ->
    exists entries',
      Evaluate.load vector tokens' = Py.Ok entries'
      /\ length entries' = length tokens' + 2.
Proof.
  intros vector tokens tokens' entries H.
  apply load_Ok_iff in H. destruct H as (H0 & H99 & _).
  eexists. split.
  - apply load_Ok_iff. split; [exact H0 |]. split; [exact H99 | reflexivity].
  - cbn [length]. rewrite length_app, length_map. cbn [length]. lia.
Qed.

Lemma load_accepts_misaligned_lengths_witness :
  exists entries',
    Evaluate.load [0; 99] [Corpus.mkToken "Punctuator" ";" 1]
    = Py.Ok entries'
    /\ length entries' = 3
    /\ length [0; 99] <> length [Corpus.mkToken "Punctuator" ";" 1] + 2.
Proof.
  assert (H : Evaluate.load [0; 99] []
              = Py.Ok [Evaluate.Sentinel "start"; Evaluate.Sentinel "end"])
    by reflexivity.
  destruct (@load_accepts_misaligned_lengths
              [0; 99] [] [Corpus.mkToken "Punctuator" ";" 1] _ H)
    as (entries' & Hload & Hlen).
  exists entries'. split; [exact Hload |]. split; [exact Hlen |].
  discriminate.
Defined.
